(** * Audit logging of the Link Organizer backend

    A shallow embedding of
      - [backend/services/error_service.py]   (class [ErrorService]),
      - [backend/middleware/request_logger.py] (class [RequestLoggerMiddleware]),
      - [backend/routes/errors.py]            (the routes),
      - [backend/app.py]                      (the error handlers),
    together with the properties of the audit subsystem they implement.

    Conventions of the embedding.
      - Python [str] is [string]; the strings handled here (HTTP methods,
        header names, endpoint names) are ASCII, and [lower]/[upper] are the
        ASCII case maps.
      - Python [int] is [Z].  A [datetime] is an integer number of
        microseconds since 1970; the dates a [datetime] can hold lie between
        [datetime_min] and [datetime_max].  A reading of [time.time()] is
        taken on the same time line, so a duration is a difference of
        integers: the floating point arithmetic of the code, which can fall
        one millisecond short of it, is left out, and no property below
        depends on the value of a duration.
      - The database is SQLite, the database of the configurations of
        [config.py] when the environment names no other.  Its driver sends
        integers of 64 bits: the embedding of a read covers the arguments
        that fit, and the properties that depend on it say so.
      - A value of dynamic type (a decoded JSON body, a value fetched with
        [dict.get]) is a [json]; Python's [None] is [JNull].
      - A [dict] with string keys is a [gmap string _]; an optional argument
        whose absence matters is an [option].
      - The table [errors] is a [gmap Z Error] from primary key to row.
      - Code that raises runs in the monad [M]: a computation takes the world
        and gives back either an exception or a value, and the world it left. *)

From Stdlib Require Import ZArith QArith Ascii Btauto.
From stdpp Require Import gmap strings list fin_maps sorting pretty.

#[local] Set Warnings "-register-all".
Local Open Scope Z_scope.

(** ** Strings *)

Module Str.

Definition lower_ascii (c : ascii) : ascii :=
  let n := N_of_ascii c in
  if ((65 <=? n) && (n <=? 90))%N then ascii_of_N (n + 32) else c.

Definition upper_ascii (c : ascii) : ascii :=
  let n := N_of_ascii c in
  if ((97 <=? n) && (n <=? 122))%N then ascii_of_N (n - 32) else c.

(** [s.lower()] *)
Fixpoint lower (s : string) : string :=
  match s with
  | EmptyString => EmptyString
  | String c s' => String (lower_ascii c) (lower s')
  end.

(** [s.upper()] *)
Fixpoint upper (s : string) : string :=
  match s with
  | EmptyString => EmptyString
  | String c s' => String (upper_ascii c) (upper s')
  end.

(** [s.startswith(p)] *)
Fixpoint startswith (p s : string) : bool :=
  match p, s with
  | EmptyString, _ => true
  | String a p', String b s' => if decide (a = b) then startswith p' s' else false
  | String _ _, EmptyString => false
  end.

(** [p in s] *)
Fixpoint contains (p s : string) : bool :=
  startswith p s ||
  match s with
  | EmptyString => false
  | String _ s' => contains p s'
  end.

(** Truth value of a string: [bool(s)]. *)
Definition truthy (s : string) : bool :=
  match s with EmptyString => false | _ => true end.

(** [str(n)] for an integer. *)
Definition of_Z (n : Z) : string := pretty n.

End Str.

(** ** Dynamic values *)

Inductive json :=
  | JNull
  | JBool (b : bool)
  | JNum (n : Z)
  | JStr (s : string)
  | JList (l : list json)
  | JDict (d : gmap string json).

(** ** Exceptions

    Every exception below is an instance of Python's [Exception]:
    [ValidationError] and [DatabaseError] are the classes of
    [backend/exceptions.py], [Raised name msg] is any other one, with the name
    of its class and its [str()]. *)

Inductive exn :=
  | ValidationError (msg : string)
  | DatabaseError (msg : string)
  | Raised (name msg : string).

(** [str(e)] *)
Definition exn_str (e : exn) : string :=
  match e with
  | ValidationError m | DatabaseError m | Raised _ m => m
  end.

(** [type(e).__name__] *)
Definition exn_name (e : exn) : string :=
  match e with
  | ValidationError _ => "ValidationError"
  | DatabaseError _ => "DatabaseError"
  | Raised n _ => n
  end.

(** ** The model class [Error] ([backend/models/error.py])

    The columns of table [errors] apart from the primary key [id], which is
    the key of the row in the table. *)

Record Error := {
  method : string;
  endpoint : string;
  request_data : json;
  request_params : option (gmap string string);
  request_headers : option (gmap string string);
  client_ip : option string;
  user_agent : option string;
  status_code : Z;
  response_data : json;
  error_message : json;
  error_type : option string;
  request_time : Z;
  response_time : option Z;
  duration_ms : option Z;
  session_id : option string;
  user_id : option Z
}.

(** ** The world

    What the code reads and writes besides its arguments: the table, the
    storage backend's disposition towards the next commit, the clock, the
    request-scoped object [flask.g] and standard output. *)

Record World := {
  errors : gmap Z Error;
  commit_fault : option string;
  clock : Z;
  g_request_start_time : option Z;
  g_request_start_datetime : option Z;
  stdout : list string
}.

Definition with_errors (t : gmap Z Error) (w : World) : World :=
  {| errors := t; commit_fault := commit_fault w; clock := clock w;
     g_request_start_time := g_request_start_time w;
     g_request_start_datetime := g_request_start_datetime w;
     stdout := stdout w |}.

Definition with_g (t dt : option Z) (w : World) : World :=
  {| errors := errors w; commit_fault := commit_fault w; clock := clock w;
     g_request_start_time := t;
     g_request_start_datetime := dt;
     stdout := stdout w |}.

Definition with_stdout (o : list string) (w : World) : World :=
  {| errors := errors w; commit_fault := commit_fault w; clock := clock w;
     g_request_start_time := g_request_start_time w;
     g_request_start_datetime := g_request_start_datetime w;
     stdout := o |}.

(** ** The monad of code that may raise *)

Definition M (A : Type) : Type := World -> (exn + A) * World.

Definition ret {A} (a : A) : M A := fun w => (inr a, w).

Definition raise {A} (e : exn) : M A := fun w => (inl e, w).

Definition bind {A B} (m : M A) (k : A -> M B) : M B :=
  fun w =>
    match m w with
    | (inl e, w') => (inl e, w')
    | (inr a, w') => k a w'
    end.

(** [try: m  except Exception as e: h e] *)
Definition try_except {A} (m : M A) (h : exn -> M A) : M A :=
  fun w =>
    match m w with
    | (inl e, w') => h e w'
    | (inr a, w') => (inr a, w')
    end.

#[global] Instance M_ret : MRet M := @ret.
#[global] Instance M_bind : MBind M := fun A B k m => bind m k.

(** A result that was computed outside the monad. *)
Definition lift_result {A} (r : exn + A) : M A := fun w => (r, w).

Definition get_world : M World := fun w => (inr w, w).
Definition put_world (w : World) : M unit := fun _ => (inr tt, w).

(** [print(s)] *)
Definition print (s : string) : M unit :=
  fun w => (inr tt, with_stdout (stdout w ++ [s]) w).

(** [datetime.utcnow()] and [time.time()] *)
Definition utcnow : M Z := fun w => (inr (clock w), w).

(** Attribute access on [flask.g]: a missing attribute is an
    [AttributeError]. *)
Definition g_get (name : string) (field : World -> option Z) : M Z :=
  fun w =>
    match field w with
    | Some v => (inr v, w)
    | None => (inl (Raised "AttributeError" name), w)
    end.

(** ** The session

    [next_id] is the key the table gives a new row. *)

Definition next_id (t : gmap Z Error) : Z :=
  1 + foldr Z.max 0 (fst <$> map_to_list t).

(** [db.session.commit()] of a unit of work that takes the table to [t']: the
    backend either takes it or fails the commit. *)
Definition session_commit (t' : gmap Z Error) : M unit :=
  fun w =>
    match commit_fault w with
    | Some msg => (inl (Raised "OperationalError" msg), w)
    | None => (inr tt, with_errors t' w)
    end.

(** [db.session.add(row); db.session.commit()]: the unit of work holds the
    one new row, which the table stores under a new key. *)
Definition session_add_commit (row : Error) : M Z :=
  w ← get_world;
  let k := next_id (errors w) in
  session_commit (<[k := row]> (errors w));;
  mret k.

(** [db.session.rollback()]: the table is as of the last commit. *)
Definition session_rollback : M unit := ret tt.

(** ** [ErrorService] ([backend/services/error_service.py]) *)

(** The keyword arguments of [ErrorService.log_error]. *)
Record LogArgs := {
  arg_method : string;
  arg_endpoint : string;
  arg_status_code : Z;
  arg_request_data : json;
  arg_request_params : option (gmap string string);
  arg_request_headers : option (gmap string string);
  arg_client_ip : option string;
  arg_user_agent : option string;
  arg_response_data : json;
  arg_error_message : json;
  arg_error_type : option string;
  arg_session_id : option string;
  arg_user_id : option Z;
  arg_request_time : option Z;
  arg_response_time : option Z;
  arg_duration_ms : option Z
}.

Definition sensitive_headers : list string :=
  ["authorization"; "cookie"; "x-api-key"].

(** The local [sanitized_headers] of [log_error]:
<<
    sanitized_headers = None
    if request_headers:
        sanitized_headers = {k: v for k, v in request_headers.items()
                             if k.lower() not in [...]}
>>
    An empty [dict] is false. *)
Definition sanitized_headers (request_headers : option (gmap string string))
  : option (gmap string string) :=
  match request_headers with
  | Some h =>
      if decide (h = ∅) then None
      else Some (filter (λ kv, Str.lower kv.1 ∉ sensitive_headers) h)
  | None => None
  end.

Definition log_error (a : LogArgs) : M (Z * Error) :=
  try_except
    (if negb (Str.truthy (arg_method a)) || negb (Str.truthy (arg_endpoint a))
        || (arg_status_code a =? 0)
     then raise (ValidationError "Method, endpoint, and status_code are required")
     else
       now ← utcnow;
       let error_log :=
         {| method := Str.upper (arg_method a);
            endpoint := arg_endpoint a;
            status_code := arg_status_code a;
            request_data := arg_request_data a;
            request_params := arg_request_params a;
            request_headers := sanitized_headers (arg_request_headers a);
            client_ip := arg_client_ip a;
            user_agent := arg_user_agent a;
            response_data := arg_response_data a;
            error_message := arg_error_message a;
            error_type := arg_error_type a;
            session_id := arg_session_id a;
            user_id := arg_user_id a;
            request_time := default now (arg_request_time a);
            response_time := arg_response_time a;
            duration_ms := arg_duration_ms a |} in
       k ← session_add_commit error_log;
       mret (k, error_log))
    (λ e,
       match e with
       | ValidationError _ => raise e
       | _ =>
           session_rollback;;
           raise (DatabaseError ("Failed to log error: " +:+ exn_str e))
       end).

(** [Error.query.get(error_id)], for an id the driver can send (see the
    conventions): the handler that turns an exception into a
    [DatabaseError] has then nothing to catch. *)
Definition get_error_by_id (error_id : Z) : M (option Error) :=
  w ← get_world; mret (errors w !! error_id).

(** *** Queries

    A query on the model is the list of the criteria given to
    [query.filter]; a row is selected when it meets all of them. *)

Definition Query : Type := list (Error → bool).

Definition query_filter (c : Error → bool) (q : Query) : Query := q ++ [c].

(** The WHERE condition of the query: every criterion is true of the row. *)
Definition selects (q : Query) (r : Error) : bool := forallb (λ c, c r) q.

(** [query.whereclause]: the conjunction of the criteria, [None] for a query
    that has none. *)
Definition whereclause (q : Query) : option (Error → bool) :=
  match q with
  | [] => None
  | _ => Some (selects q)
  end.

(** [query.filter(criterion)] for a criterion that may be [None].  SQLAlchemy
    coerces a [None] given as a criterion to the SQL constant NULL (the query
    reads [WHERE NULL]), and a row is selected only when the condition is
    true of it: the criterion is true of no row. *)
Definition filter_clause (criterion : option (Error → bool)) (q : Query)
  : Query :=
  query_filter (default (λ _, false) criterion) q.

(** [x LIKE pattern] on SQLite: [%] in the pattern stands for any text, [_]
    for any one character, and every other character for itself, the
    letters of ASCII without regard to case.  No character escapes
    another. *)
Fixpoint like (pattern : string) : string → bool :=
  match pattern with
  | EmptyString =>
      λ x, match x with EmptyString => true | String _ _ => false end
  | String c pattern' =>
      if Ascii.eqb c "%" then
        fix any (x : string) : bool :=
          like pattern' x
          || match x with EmptyString => false | String _ x' => any x' end
      else if Ascii.eqb c "_" then
        λ x, match x with
             | EmptyString => false
             | String _ x' => like pattern' x'
             end
      else
        λ x, match x with
             | EmptyString => false
             | String d x' =>
                 Ascii.eqb (Str.lower_ascii c) (Str.lower_ascii d)
                 && like pattern' x'
             end
  end.

(** [column.contains(text)] of SQLAlchemy, which is
    [column LIKE '%' || text || '%']: the text goes into the pattern as it
    is. *)
Definition column_contains (text column : string) : bool :=
  like ("%" +:+ text +:+ "%") column.

(** [query.all()], rows with their keys. *)
Definition query_all (q : Query) (t : gmap Z Error) : list (Z * Error) :=
  filter (λ kr, selects q kr.2 = true) (map_to_list t).

(** [query.order_by(desc(Error.request_time))] *)
Definition by_request_time_desc (x y : Z * Error) : Prop :=
  request_time y.2 ≤ request_time x.2.

#[global] Instance by_request_time_desc_dec x y :
  Decision (by_request_time_desc x y) := Z_le_dec _ _.

Definition order_by_request_time_desc (rows : list (Z * Error))
  : list (Z * Error) :=
  merge_sort by_request_time_desc rows.

(** [query.paginate(page=page, per_page=per_page, error_out=False)] of
    Flask-SQLAlchemy: with [error_out=False] a page below 1 is page 1 and a
    page size below 1 is 20. *)
Record Pagination := {
  items : list (Z * Error);
  total : Z;
  pages : Z;
  has_next : bool;
  has_prev : bool
}.

Definition paginate (rows : list (Z * Error)) (page per_page : Z) : Pagination :=
  let page := if page <? 1 then 1 else page in
  let per_page := if per_page <? 1 then 20 else per_page in
  let total := Z.of_nat (length rows) in
  let pages := (total + per_page - 1) / per_page in
  {| items := take (Z.to_nat per_page)
                (drop (Z.to_nat ((page - 1) * per_page)) rows);
     total := total;
     pages := pages;
     has_next := page <? pages;
     has_prev := 1 <? page |}.

(** The filter arguments of [get_errors]. *)
Record Filters := {
  f_method : option string;
  f_endpoint : option string;
  f_status_code : option Z;
  f_error_type : option string;
  f_start_date : option Z;
  f_end_date : option Z
}.

(** [if x: query = query.filter(c x)]: an argument that is [None] or false
    (an empty string, the integer 0) adds no criterion. *)
Definition filter_if {A} (truthy : A → bool) (x : option A)
  (c : A → Error → bool) (q : Query) : Query :=
  match x with
  | Some v => if truthy v then query_filter (c v) q else q
  | None => q
  end.

(** The query [get_errors] builds.  [Error.method == m] and
    [Error.error_type == t] are equality of texts, and a NULL [error_type]
    equals none; [Error.endpoint.contains(e)] is [column_contains]. *)
Definition errors_query (f : Filters) : Query :=
  let query : Query := [] in
  let query := filter_if Str.truthy (f_method f)
    (λ m r, bool_decide (method r = Str.upper m)) query in
  let query := filter_if Str.truthy (f_endpoint f)
    (λ e r, column_contains e (endpoint r)) query in
  let query := filter_if (λ c, negb (c =? 0)) (f_status_code f)
    (λ c r, status_code r =? c) query in
  let query := filter_if Str.truthy (f_error_type f)
    (λ t r, bool_decide (error_type r = Some t)) query in
  let query := filter_if (λ _, true) (f_start_date f)
    (λ d r, d <=? request_time r) query in
  let query := filter_if (λ _, true) (f_end_date f)
    (λ d r, request_time r <=? d) query in
  query.

(** The dictionary [get_errors] returns. *)
Record ErrorPage := {
  pg_errors : list (Z * Error);
  pg_total : Z;
  pg_page : Z;
  pg_per_page : Z;
  pg_pages : Z;
  pg_has_next : bool;
  pg_has_prev : bool
}.

(** [get_errors] for a page, a page size and a status code the driver can
    send (see the conventions): the handler that turns an exception into a
    [DatabaseError] has then nothing to catch. *)
Definition get_errors (page per_page : Z) (f : Filters) : M ErrorPage :=
  w ← get_world;
  let query := errors_query f in
  let rows := order_by_request_time_desc (query_all query (errors w)) in
  let pagination := paginate rows page per_page in
  mret {| pg_errors := items pagination;
          pg_total := total pagination;
          pg_page := page;
          pg_per_page := per_page;
          pg_pages := pages pagination;
          pg_has_next := has_next pagination;
          pg_has_prev := has_prev pagination |}.

(** *** Statistics *)

(** [db.session.query(col, count(Error.id)).filter(...).group_by(col).all()]:
    one pair per value of the column, with the number of rows having it. *)
Definition group_count {K} `{EqDecision K} (col : Error → K)
  (rows : list (Z * Error)) : list (K * nat) :=
  (λ k, (k, length (filter (λ kr, col kr.2 = k) rows)))
    <$> remove_dups ((λ kr, col kr.2) <$> rows).

(** [.order_by(count.desc())] *)
Definition by_count_desc {K} (x y : K * nat) : Prop := (y.2 ≤ x.2)%nat.

#[global] Instance by_count_desc_dec {K} (x y : K * nat) :
  Decision (by_count_desc x y) := le_dec _ _.

(** A dictionary comprehension [{k: v for k, v in l}]: a later pair
    replaces an earlier one with the same key. *)
Definition dict_of {V} (l : list (string * V)) : gmap string V :=
  list_to_map (reverse l).

(** [db.session.query(func.avg(Error.duration_ms)) ... .scalar()]: the mean
    of the durations that are not NULL, and NULL when there is none.  The
    mean is the exact quotient here; the database gives the floating point
    number next to it. *)
Definition avg (ds : list Z) : option Q :=
  match ds with
  | [] => None
  | _ => Some (Qdiv (inject_Z (foldr Z.add 0 ds))
                    (inject_Z (Z.of_nat (length ds))))
  end.

(** The dictionary [get_error_statistics] returns. *)
Record Statistics := {
  total_requests : nat;
  status_code_counts : gmap string nat;
  method_counts : gmap string nat;
  top_endpoints : gmap string nat;
  average_response_time_ms : Q
}.

Definition statistics_query (start_date end_date : option Z) : Query :=
  let query : Query := [] in
  let query := filter_if (λ _, true) start_date
    (λ d r, d <=? request_time r) query in
  let query := filter_if (λ _, true) end_date
    (λ d r, request_time r <=? d) query in
  query.

(** [total_requests] is [query.count()].  Each aggregate is a query of its
    own, [db.session.query(...).filter(query.whereclause)]: all four select
    the same rows.  As in [get_errors], nothing raises. *)
Definition get_error_statistics (start_date end_date : option Z)
  : M Statistics :=
  w ← get_world;
  let query := statistics_query start_date end_date in
  let total_requests := length (query_all query (errors w)) in
  let selected := query_all (filter_clause (whereclause query) []) (errors w) in
  let error_counts := group_count status_code selected in
  let method_counts := group_count method selected in
  let endpoint_counts :=
    take 10 (merge_sort by_count_desc (group_count endpoint selected)) in
  let avg_duration := avg (omap (λ kr, duration_ms kr.2) selected) in
  mret {| total_requests := total_requests;
          status_code_counts :=
            dict_of ((λ cc, (Str.of_Z cc.1, cc.2)) <$> error_counts);
          method_counts := dict_of method_counts;
          top_endpoints := dict_of endpoint_counts;
          average_response_time_ms :=
            match avg_duration with
            | Some a => if Qeq_bool a 0 then 0%Q else a
            | None => 0%Q
            end |}.

(** *** Retention *)

(** The first and the last instant a [datetime] can hold, the first of year
    1 and the last of year 9999, in microseconds since 1970. *)
Definition datetime_min : Z := -62135596800000000.
Definition datetime_max : Z := 253402300799999999.

(** [timedelta(days=days)] in microseconds: a [timedelta] holds at most
    999999999 days either way. *)
Definition timedelta_days (days : Z) : exn + Z :=
  if Z.abs days <=? 999999999 then inr (days * 86400000000)
  else if Z.abs days <? 2 ^ 31 then
    inl (Raised "OverflowError"
           ("days=" +:+ Str.of_Z days +:+ "; must have magnitude <= 999999999"))
  else inl (Raised "OverflowError" "Python int too large to convert to C int").

(** [t - delta] for a [datetime] and a [timedelta] *)
Definition datetime_sub (t delta : Z) : exn + Z :=
  if (datetime_min <=? t - delta) && (t - delta <=? datetime_max)
  then inr (t - delta)
  else inl (Raised "OverflowError" "date value out of range").

(** [Error.query.filter(Error.request_time < cutoff_date).delete()] returns
    the number of rows it matched; the deletion is in the table once the
    commit is through. *)
Definition delete_old_errors (days : Z) : M nat :=
  try_except
    (now ← utcnow;
     delta ← lift_result (timedelta_days days);
     cutoff_date ← lift_result (datetime_sub now delta);
     w ← get_world;
     let old := filter (λ kr, request_time kr.2 < cutoff_date) (errors w) in
     let deleted_count := size old in
     session_commit
       (filter (λ kr, ¬ request_time kr.2 < cutoff_date) (errors w));;
     mret deleted_count)
    (λ e,
       session_rollback;;
       raise (DatabaseError ("Failed to delete old error logs: " +:+ exn_str e))).

(** ** The cleanup route ([backend/routes/errors.py]) *)

(** A response of a route: the body given to [jsonify] and the status. *)
Record RouteResponse := {
  rr_body : gmap string json;
  rr_status : Z
}.

(** [utils/response.py] *)
Definition success_response (data : json) (message : string) : RouteResponse :=
  {| rr_body := {[ "success" := JBool true; "data" := data;
                   "message" := JStr message ]};
     rr_status := 200 |}.

Definition error_response (status_code : Z) (message : string) : RouteResponse :=
  {| rr_body := {[ "success" := JBool false; "message" := JStr message ]};
     rr_status := status_code |}.

(** [days_arg] is [request.args.get('days', type=int)]: the integer the query
    string gives, [None] when it gives none. *)
Definition cleanup_old_errors (days_arg : option Z) : M RouteResponse :=
  try_except
    (let days := default 30 days_arg in
     if days <? 1 then mret (error_response 400 "Days must be at least 1")
     else
       deleted_count ← delete_old_errors days;
       mret (success_response
               (JDict {[ "deleted_count" := JNum (Z.of_nat deleted_count);
                         "days_kept" := JNum days ]})
               ("Successfully deleted " +:+ Str.of_Z (Z.of_nat deleted_count)
                  +:+ " old error logs")))
    (λ e,
       match e with
       | DatabaseError m => mret (error_response 500 m)
       | _ => mret (error_response 500 ("Internal server error: " +:+ exn_str e))
       end).

(** ** [RequestLoggerMiddleware] ([backend/middleware/request_logger.py]) *)

(** What the middleware reads of [flask.request].  [rq_json] is the body
    decoded as JSON, [None] when it is not valid JSON; [rq_user_agent] is
    [request.headers.get('User-Agent')]. *)
Record Request := {
  rq_method : string;
  rq_endpoint : option string;
  rq_path : string;
  rq_is_json : bool;
  rq_json : option json;
  rq_args : gmap string string;
  rq_headers : gmap string string;
  rq_remote_addr : option string;
  rq_user_agent : option string
}.

(** What the middleware reads of the response.  [resp_is_json] is
    [response.is_json], true when the response declares a JSON content type;
    [resp_json] is the body decoded as JSON, [None] when it is not valid
    JSON. *)
Record Response := {
  resp_status_code : Z;
  resp_is_json : bool;
  resp_json : option json
}.

(** [request.get_json()], called on a request that declares JSON.  The text
    of the exception depends on the body and on the mode Flask runs in; it
    is one text here, and no property depends on it. *)
Definition request_get_json (rq : Request) : M json :=
  match rq_json rq with
  | Some j => mret j
  | None => raise (Raised "BadRequest" "Failed to decode JSON object")
  end.

(** [response.get_json()], called on a response that declares JSON. *)
Definition response_get_json (response : Response) : exn + json :=
  match resp_json response with
  | Some j => inr j
  | None => inl (Raised "ValueError" "Expecting value")
  end.

(** [v.get(key, dflt)]: only a [dict] has the method. *)
Definition json_get (v : json) (key : string) (dflt : json) : exn + json :=
  match v with
  | JDict d => inr (default dflt (d !! key))
  | _ => inl (Raised "AttributeError" "object has no attribute 'get'")
  end.

(** [x or y] on strings, [x] possibly [None]. *)
Definition str_or (x : option string) (y : string) : string :=
  match x with
  | Some s => if Str.truthy s then s else y
  | None => y
  end.

(** [d if d else None] on a dictionary. *)
Definition dict_or_none {V} (d : gmap string V) : option (gmap string V) :=
  if decide (d = ∅) then None else Some d.

Definition skip_patterns : list string :=
  ["static"; "health"; "favicon"; "robots.txt"].

Definition _should_skip_logging (endpoint : string) : bool :=
  existsb (λ pattern, Str.contains pattern (Str.lower endpoint)) skip_patterns.

(** The locals [response_data], [error_message] and [error_type] of
    [after_request] after
<<
    if response.status_code >= 400:
        try:
            if response.is_json:
                response_data = response.get_json()
                error_message = response_data.get('message', 'Unknown error')
                error_type = 'HTTPError'
        except:
            error_message = f"HTTP {response.status_code}"
            error_type = 'HTTPError'
>>
    An assignment made before the exception stands in the handler. *)
Definition error_details (response : Response) : json * json * option string :=
  let response_data := JNull in
  let error_message := JNull in
  let error_type := None in
  let fallback := JStr ("HTTP " +:+ Str.of_Z (resp_status_code response)) in
  if 400 <=? resp_status_code response then
    if resp_is_json response then
      match response_get_json response with
      | inl _ => (response_data, fallback, Some "HTTPError")
      | inr j =>
          let response_data := j in
          match json_get response_data "message" (JStr "Unknown error") with
          | inl _ => (response_data, fallback, Some "HTTPError")
          | inr m => (response_data, m, Some "HTTPError")
          end
      end
    else (response_data, error_message, error_type)
  else (response_data, error_message, error_type).

Definition _log_request_async (kwargs : LogArgs) : M unit :=
  try_except
    (log_error kwargs;; mret tt)
    (λ e, print ("Failed to log request: " +:+ exn_str e)).

Definition before_request : M unit :=
  now ← utcnow;
  w ← get_world;
  put_world (with_g (Some now) (Some now) w).

Definition after_request (rq : Request) (response : Response) : M Response :=
  try_except
    (now ← utcnow;
     start ← g_get "request_start_time" g_request_start_time;
     let duration_ms := Z.quot (now - start) 1000 in
     let method := rq_method rq in
     let endpoint := str_or (rq_endpoint rq) (rq_path rq) in
     if _should_skip_logging endpoint then mret tt
     else
       request_data ←
         (if bool_decide (method ∈ ["POST"; "PUT"; "PATCH"]) && rq_is_json rq
          then request_get_json rq else mret JNull);
       let request_params := dict_or_none (rq_args rq) in
       let request_headers := dict_or_none (rq_headers rq) in
       let client_ip := rq_remote_addr rq in
       let user_agent := rq_user_agent rq in
       let '(response_data, error_message, error_type) :=
         error_details response in
       start_datetime ← g_get "request_start_datetime" g_request_start_datetime;
       response_time ← utcnow;
       _log_request_async
         {| arg_method := method;
            arg_endpoint := endpoint;
            arg_status_code := resp_status_code response;
            arg_request_data := request_data;
            arg_request_params := request_params;
            arg_request_headers := request_headers;
            arg_client_ip := client_ip;
            arg_user_agent := user_agent;
            arg_response_data := response_data;
            arg_error_message := error_message;
            arg_error_type := error_type;
            arg_session_id := None;
            arg_user_id := None;
            arg_request_time := Some start_datetime;
            arg_response_time := Some response_time;
            arg_duration_ms := Some duration_ms |})
    (λ e, print ("Error in request logging: " +:+ exn_str e));;
  mret response.

Definition teardown_appcontext (rq : Request) (exception : option exn) : M unit :=
  match exception with
  | None => mret tt
  | Some exc =>
      try_except
        (now ← utcnow;
         start ← g_get "request_start_time" g_request_start_time;
         let duration_ms := Z.quot (now - start) 1000 in
         request_data ←
           (if rq_is_json rq then request_get_json rq else mret JNull);
         start_datetime ← g_get "request_start_datetime" g_request_start_datetime;
         response_time ← utcnow;
         _log_request_async
           {| arg_method := rq_method rq;
              arg_endpoint := str_or (rq_endpoint rq) (rq_path rq);
              arg_status_code := 500;
              arg_request_data := request_data;
              arg_request_params := dict_or_none (rq_args rq);
              arg_request_headers := dict_or_none (rq_headers rq);
              arg_client_ip := rq_remote_addr rq;
              arg_user_agent := rq_user_agent rq;
              arg_response_data := JNull;
              arg_error_message := JStr (exn_str exc);
              arg_error_type := Some (exn_name exc);
              arg_session_id := None;
              arg_user_id := None;
              arg_request_time := Some start_datetime;
              arg_response_time := Some response_time;
              arg_duration_ms := Some duration_ms |})
        (λ _, mret tt)
  end.

(** *** The error handlers of the application ([backend/app.py])

    Each handler returns [jsonify({...}), code]: a response that declares
    JSON, whose body is the object given to [jsonify].  [internal_error] and
    [handle_exception] first roll the session back, which leaves the table
    as the last commit left it. *)

Definition handler_response (error message : string) (code : Z) : Response :=
  {| resp_status_code := code;
     resp_is_json := true;
     resp_json := Some (JDict {[ "success" := JBool false;
                                 "error" := JStr error;
                                 "message" := JStr message ]}) |}.

Definition bad_request : Response :=
  handler_response "Bad request"
    "The request could not be processed due to invalid data." 400.

Definition not_found : Response :=
  handler_response "Not found" "The requested resource was not found." 404.

Definition method_not_allowed : Response :=
  handler_response "Method not allowed"
    "The HTTP method is not allowed for this endpoint." 405.

Definition internal_error : Response :=
  handler_response "Internal server error"
    "An unexpected error occurred. Please try again later." 500.

Definition handle_exception : Response :=
  handler_response "Internal server error"
    "An unexpected error occurred. Please try again later." 500.

(** *** A request lifecycle

    The framework runs [before_request], then the view, which either
    returns a response or raises.  The application registers a handler for
    [Exception], so an exception of the view is answered by a handler and
    the answer is a response like any other: it goes through
    [after_request], and the application context is then torn down with no
    exception.  [elapsed] is the time the view took. *)

Inductive Outcome :=
  | Completed (response : Response)
  | Aborted (exception : exn).

(** The handler Flask picks for an exception of the view: the handler
    registered for the code of werkzeug's [BadRequest], [NotFound],
    [MethodNotAllowed] and [InternalServerError], and for every other
    exception the handler registered for [Exception]. *)
Definition handle_user_exception (e : exn) : Response :=
  match e with
  | Raised name _ =>
      if String.eqb name "BadRequest" then bad_request
      else if String.eqb name "NotFound" then not_found
      else if String.eqb name "MethodNotAllowed" then method_not_allowed
      else if String.eqb name "InternalServerError" then internal_error
      else handle_exception
  | _ => handle_exception
  end.

(** [full_dispatch_request]: the response of the view, or of the handler of
    its exception. *)
Definition dispatched (outcome : Outcome) : Response :=
  match outcome with
  | Completed response => response
  | Aborted exc => handle_user_exception exc
  end.

Definition tick (elapsed : Z) : M unit :=
  fun w =>
    (inr tt,
     {| errors := errors w; commit_fault := commit_fault w;
        clock := clock w + elapsed;
        g_request_start_time := g_request_start_time w;
        g_request_start_datetime := g_request_start_datetime w;
        stdout := stdout w |}).

Definition request_lifecycle (rq : Request) (elapsed : Z) (outcome : Outcome)
  : M Response :=
  before_request;;
  tick elapsed;;
  response ← after_request rq (dispatched outcome);
  teardown_appcontext rq None;;
  mret response.

(** ** The read routes of [backend/routes/errors.py] *)

(** The query string of [GET /api/errors] as the fields of
    [ErrorFilterSchema] read it: a text, an integer or a date for each
    argument that is given. *)
Record ListQuery := {
  q_method : option string;
  q_endpoint : option string;
  q_status_code : option Z;
  q_error_type : option string;
  q_start_date : option Z;
  q_end_date : option Z;
  q_page : option Z;
  q_per_page : option Z
}.

Definition filter_methods : list string :=
  ["GET"; "POST"; "PUT"; "DELETE"; "PATCH"; "OPTIONS"].

(** The validators of [ErrorFilterSchema] ([backend/schemas/error_schema.py]):
    [OneOf] on the method, [Range(min=100, max=599)] on the status code,
    [Range(min=1)] on the page and [Range(min=1, max=100)] on the page
    size.  An argument that is not given passes. *)
Definition filter_schema_valid (q : ListQuery) : bool :=
  from_option (λ m, bool_decide (m ∈ filter_methods)) true (q_method q)
  && from_option (λ c, (100 <=? c) && (c <=? 599)) true (q_status_code q)
  && from_option (λ p, 1 <=? p) true (q_page q)
  && from_option (λ p, (1 <=? p) && (p <=? 100)) true (q_per_page q).

Section routes.

(** [error_schema.dump(error)], the serialisation of a row by marshmallow,
    which may raise; and the text of marshmallow's [ValidationError] for a
    query that does not pass. *)
Variable dump : Z → Error → exn + json.
Variable validation_message : ListQuery → string.

(** [error_filter_schema.load(request.args)]: the arguments, with
    [missing=1] for the page and [missing=50] for the page size. *)
Definition error_filter_schema_load (q : ListQuery) : M ListQuery :=
  if filter_schema_valid q then
    mret {| q_method := q_method q;
            q_endpoint := q_endpoint q;
            q_status_code := q_status_code q;
            q_error_type := q_error_type q;
            q_start_date := q_start_date q;
            q_end_date := q_end_date q;
            q_page := Some (default 1 (q_page q));
            q_per_page := Some (default 50 (q_per_page q)) |}
  else raise (Raised "marshmallow.ValidationError" (validation_message q)).

(** [datetime.fromisoformat(args['start_date'].replace('Z', '+00:00'))] in
    the route [get_errors].  The argument has been through [fields.DateTime]
    of the schema and is a [datetime], whose [replace] takes the fields of a
    date, integers: given two texts it raises [TypeError]. *)
Definition loaded_date_replace (d : Z) : M Z :=
  raise (Raised "TypeError" "'str' object cannot be interpreted as an integer").

(** [if args.get(name): date = ...]; a [datetime] is true. *)
Definition parse_loaded_date (d : option Z) : M (option Z) :=
  match d with
  | Some d => t ← loaded_date_replace d; mret (Some t)
  | None => mret None
  end.

(** [except MarshmallowValidationError]: marshmallow's [ValidationError],
    written [Raised "marshmallow.ValidationError" m], is not the class of
    the same name in [backend/exceptions.py]. *)
Definition is_marshmallow_validation_error (e : exn) : bool :=
  match e with
  | Raised name _ => String.eqb name "marshmallow.ValidationError"
  | _ => false
  end.

(** [except DatabaseError as e: ...  except Exception as e: ...] *)
Definition route_failure (e : exn) : M RouteResponse :=
  match e with
  | DatabaseError m => mret (error_response 500 m)
  | _ => mret (error_response 500 ("Internal server error: " +:+ exn_str e))
  end.

(** [GET /api/errors] *)
Definition get_errors_route (q : ListQuery) : M RouteResponse :=
  try_except
    (args ← error_filter_schema_load q;
     start_date ← parse_loaded_date (q_start_date args);
     end_date ← parse_loaded_date (q_end_date args);
     result ← get_errors (default 1 (q_page args)) (default 50 (q_per_page args))
                {| f_method := q_method args;
                   f_endpoint := q_endpoint args;
                   f_status_code := q_status_code args;
                   f_error_type := q_error_type args;
                   f_start_date := start_date;
                   f_end_date := end_date |};
     errors ← mapM (λ kr, lift_result (dump kr.1 kr.2)) (pg_errors result);
     mret (success_response
             (JDict {[ "errors" := JList errors;
                       "total" := JNum (pg_total result);
                       "page" := JNum (pg_page result);
                       "per_page" := JNum (pg_per_page result);
                       "pages" := JNum (pg_pages result);
                       "has_next" := JBool (pg_has_next result);
                       "has_prev" := JBool (pg_has_prev result) ]})
             "Error logs retrieved successfully"))
    (λ e, if is_marshmallow_validation_error e
          then mret (error_response 400 ("Validation error: " +:+ exn_str e))
          else route_failure e).

(** [GET /api/errors/<int:error_id>]; a row, when there is one, is true. *)
Definition get_error (error_id : Z) : M RouteResponse :=
  try_except
    (error_log ← get_error_by_id error_id;
     match error_log with
     | None => mret (error_response 404 "Error log not found")
     | Some e =>
         data ← lift_result (dump error_id e);
         mret (success_response data "Error log retrieved successfully")
     end)
    route_failure.

End routes.

(** What Flask makes of the pair [(jsonify(body), status_code)] a route
    returns: a response that declares JSON, with that body and status. *)
Definition make_response (r : RouteResponse) : Response :=
  {| resp_status_code := rr_status r;
     resp_is_json := true;
     resp_json := Some (JDict (rr_body r)) |}.
(** * Vocabulary of the properties *)

(** The row [log_error] builds from its arguments at time [now]. *)
Definition logged_row (a : LogArgs) (now : Z) : Error :=
  {| method := Str.upper (arg_method a);
     endpoint := arg_endpoint a;
     status_code := arg_status_code a;
     request_data := arg_request_data a;
     request_params := arg_request_params a;
     request_headers := sanitized_headers (arg_request_headers a);
     client_ip := arg_client_ip a;
     user_agent := arg_user_agent a;
     response_data := arg_response_data a;
     error_message := arg_error_message a;
     error_type := arg_error_type a;
     session_id := arg_session_id a;
     user_id := arg_user_id a;
     request_time := default now (arg_request_time a);
     response_time := arg_response_time a;
     duration_ms := arg_duration_ms a |}.


(** Header names are compared without regard to case. *)
Definition same_header_name (a b : string) : Prop := Str.lower a = Str.lower b.

Definition is_sensitive (name : string) : Prop :=
  same_header_name name "authorization" ∨ same_header_name name "cookie"
  ∨ same_header_name name "x-api-key".

#[global] Instance is_sensitive_dec name : Decision (is_sensitive name).
Proof. unfold is_sensitive, same_header_name. apply _. Defined.

(** The value of header [name] in headers that may be absent; absent headers
    have no entry. *)
Definition header (h : option (gmap string string)) (name : string)
  : option string :=
  h ≫= (.!! name).

(** [a] with its [request_headers] replaced. *)
Definition with_request_headers (h : option (gmap string string)) (a : LogArgs)
  : LogArgs :=
  {| arg_method := arg_method a;
     arg_endpoint := arg_endpoint a;
     arg_status_code := arg_status_code a;
     arg_request_data := arg_request_data a;
     arg_request_params := arg_request_params a;
     arg_request_headers := h;
     arg_client_ip := arg_client_ip a;
     arg_user_agent := arg_user_agent a;
     arg_response_data := arg_response_data a;
     arg_error_message := arg_error_message a;
     arg_error_type := arg_error_type a;
     arg_session_id := arg_session_id a;
     arg_user_id := arg_user_id a;
     arg_request_time := arg_request_time a;
     arg_response_time := arg_response_time a;
     arg_duration_ms := arg_duration_ms a |}.


(** ** The interceptor *)

(** The endpoint the interceptor logs: [request.endpoint or request.path]. *)
Definition resolved_endpoint (rq : Request) : string :=
  str_or (rq_endpoint rq) (rq_path rq).

(** The skip policy in words: the endpoint in lower case contains one of
    the patterns. *)
Definition skip_listed (endpoint : string) : Prop :=
  ∃ pattern, pattern ∈ ["static"; "health"; "favicon"; "robots.txt"]
    ∧ ∃ a b, Str.lower endpoint = a +:+ pattern +:+ b.

(** The rows of [w'] under keys that [w] does not have. *)
Definition new_records (w w' : World) : gmap Z Error :=
  filter (λ kr, errors w !! kr.1 = None) (errors w').

(** The number of records a computation adds to the table. *)
Definition records_produced {A} (m : M A) (w : World) : nat :=
  size (new_records w (m w).2).

(** [e] is a record that [after_request] adds to the table of [w]. *)
Definition after_request_logs (rq : Request) (response : Response) (w : World)
  (e : Error) : Prop :=
  ∃ k, new_records w (after_request rq response w).2 !! k = Some e.

(** The keyword arguments [after_request] gives [log_error], from the
    request body it read, the start of the request and the time of the
    call. *)
Definition after_request_kwargs (rq : Request) (response : Response)
  (request_data : json) (start start_datetime now : Z) : LogArgs :=
  {| arg_method := rq_method rq;
     arg_endpoint := resolved_endpoint rq;
     arg_status_code := resp_status_code response;
     arg_request_data := request_data;
     arg_request_params := dict_or_none (rq_args rq);
     arg_request_headers := dict_or_none (rq_headers rq);
     arg_client_ip := rq_remote_addr rq;
     arg_user_agent := rq_user_agent rq;
     arg_response_data := (error_details response).1.1;
     arg_error_message := (error_details response).1.2;
     arg_error_type := (error_details response).2;
     arg_session_id := None;
     arg_user_id := None;
     arg_request_time := Some start_datetime;
     arg_response_time := Some now;
     arg_duration_ms := Some (Z.quot (now - start) 1000) |}.

(** The same for [teardown_appcontext] and the exception it is given. *)
Definition teardown_kwargs (rq : Request) (exc : exn)
  (request_data : json) (start start_datetime now : Z) : LogArgs :=
  {| arg_method := rq_method rq;
     arg_endpoint := resolved_endpoint rq;
     arg_status_code := 500;
     arg_request_data := request_data;
     arg_request_params := dict_or_none (rq_args rq);
     arg_request_headers := dict_or_none (rq_headers rq);
     arg_client_ip := rq_remote_addr rq;
     arg_user_agent := rq_user_agent rq;
     arg_response_data := JNull;
     arg_error_message := JStr (exn_str exc);
     arg_error_type := Some (exn_name exc);
     arg_session_id := None;
     arg_user_id := None;
     arg_request_time := Some start_datetime;
     arg_response_time := Some now;
     arg_duration_ms := Some (Z.quot (now - start) 1000) |}.

(** The request body as [after_request] reads it: [None] when reading it
    raises. *)
Definition after_request_body (rq : Request) : option json :=
  if bool_decide (rq_method rq ∈ ["POST"; "PUT"; "PATCH"]) && rq_is_json rq
  then rq_json rq else Some JNull.

(** The same for [teardown_appcontext]. *)
Definition teardown_body (rq : Request) : option json :=
  if rq_is_json rq then rq_json rq else Some JNull.

(** ** The query engine *)




(** An integer of 64 bits, signed: what the driver of the database can
    send. *)
Definition int64 (n : Z) : Prop := - 2 ^ 63 ≤ n < 2 ^ 63.



(** The instant [days] days before [now]. *)
Definition days_before (now days : Z) : Z := now - days * 86400000000.

(** The instant [days] days before [now] is one a [datetime] can hold,
    [days] being a number of days a [timedelta] can hold. *)
Definition cutoff_in_range (now days : Z) : Prop :=
  Z.abs days ≤ 999999999
  ∧ datetime_min ≤ days_before now days ≤ datetime_max.

#[global] Instance cutoff_in_range_dec now days :
  Decision (cutoff_in_range now days).
Proof. unfold cutoff_in_range. apply _. Defined.

(** A row's request time is within the optional bounds, both inclusive. *)
Definition in_range (start_date end_date : option Z) (e : Error) : Prop :=
  (∀ d, start_date = Some d → d ≤ request_time e)
  ∧ (∀ d, end_date = Some d → request_time e ≤ d).

#[global] Instance in_range_dec start_date end_date e :
  Decision (in_range start_date end_date e).
Proof.
  unfold in_range.
  destruct start_date as [s|], end_date as [d|].
  - destruct (decide (s ≤ request_time e ∧ request_time e ≤ d)) as [H|H];
      [left | right].
    + split; intros ? [= <-]; tauto.
    + intros [H1 H2]. apply H. split; [by apply H1 | by apply H2].
  - destruct (decide (s ≤ request_time e)) as [H|H]; [left | right].
    + split; [by intros ? [= <-] | by intros ? [=]].
    + intros [H1 _]. by apply H, H1.
  - destruct (decide (request_time e ≤ d)) as [H|H]; [left | right].
    + split; [by intros ? [=] | by intros ? [= <-]].
    + intros [_ H2]. by apply H, H2.
  - left. split; by intros ? [=].
Defined.

(** The rows of the table within the bounds, with their keys. *)
Definition selected_rows (start_date end_date : option Z) (t : gmap Z Error)
  : list (Z * Error) :=
  filter (λ kr, in_range start_date end_date kr.2) (map_to_list t).

(** The same for the table of a world. *)
Definition rows_in (start_date end_date : option Z) (w : World)
  : list (Z * Error) :=
  selected_rows start_date end_date (errors w).

(** The rows the aggregates of [get_error_statistics] are computed over. *)
Definition aggregated_rows (start_date end_date : option Z) (t : gmap Z Error)
  : list (Z * Error) :=
  match start_date, end_date with
  | None, None => []
  | _, _ => selected_rows start_date end_date t
  end.

(** The number of rows that satisfy [P]. *)
Definition count_where (P : Error → Prop) `{!∀ e, Decision (P e)}
  (rows : list (Z * Error)) : nat :=
  length (filter (λ kr, P kr.2) rows).

(** The durations of the rows that have one. *)
Definition durations (rows : list (Z * Error)) : list Z :=
  omap (λ kr, duration_ms kr.2) rows.

(** The world in which the hooks run after the handler: [before_request] has
    recorded the start and the handler has taken [elapsed]. *)
Definition started (elapsed : Z) (w : World) : World :=
  {| errors := errors w; commit_fault := commit_fault w;
     clock := clock w + elapsed;
     g_request_start_time := Some (clock w);
     g_request_start_datetime := Some (clock w);
     stdout := stdout w |}.

(** ** Sample data *)

Module Sample.

(** An empty table on a healthy backend. *)
Definition world : World :=
  {| errors := ∅; commit_fault := None; clock := 1700000000000000;
     g_request_start_time := Some 1699999999990000;
     g_request_start_datetime := Some 1699999999990000;
     stdout := [] |}.

(** The same with a backend that fails the next commit. *)
Definition failing_world : World :=
  {| errors := ∅; commit_fault := Some "database is locked";
     clock := 1700000000000000;
     g_request_start_time := Some 1699999999990000;
     g_request_start_datetime := Some 1699999999990000;
     stdout := [] |}.

(** [log_error(method, endpoint, status_code)], other arguments left at
    their defaults. *)
Definition args (method endpoint : string) (status_code : Z) : LogArgs :=
  {| arg_method := method;
     arg_endpoint := endpoint;
     arg_status_code := status_code;
     arg_request_data := JNull;
     arg_request_params := None;
     arg_request_headers := None;
     arg_client_ip := None;
     arg_user_agent := None;
     arg_response_data := JNull;
     arg_error_message := JNull;
     arg_error_type := None;
     arg_session_id := None;
     arg_user_id := None;
     arg_request_time := None;
     arg_response_time := None;
     arg_duration_ms := None |}.

Definition mixed_headers : gmap string string :=
  {[ "Authorization" := "Bearer token123"; "COOKIE" := "session=abc123";
     "x-api-key" := "k"; "Content-Type" := "application/json" ]}.

Definition secret_headers : gmap string string :=
  {[ "Authorization" := "Bearer token123"; "Cookie" := "session=abc123" ]}.

(** [GET /api/links], resolved to the endpoint [links.get_links]. *)
Definition request : Request :=
  {| rq_method := "GET";
     rq_endpoint := Some "links.get_links";
     rq_path := "/api/links";
     rq_is_json := false;
     rq_json := None;
     rq_args := ∅;
     rq_headers := {[ "Accept" := "*/*" ]};
     rq_remote_addr := Some "127.0.0.1";
     rq_user_agent := None |}.

(** [GET /api/health], resolved to the endpoint [health.health_check]. *)
Definition health_request : Request :=
  {| rq_method := "GET";
     rq_endpoint := Some "health.health_check";
     rq_path := "/api/health";
     rq_is_json := false;
     rq_json := None;
     rq_args := ∅;
     rq_headers := {[ "Accept" := "*/*" ]};
     rq_remote_addr := Some "127.0.0.1";
     rq_user_agent := None |}.

Definition ok_response : Response :=
  {| resp_status_code := 200; resp_is_json := true;
     resp_json := Some (JDict {[ "success" := JBool true ]}) |}.

(** A 404 with the JSON body [{"message": "not found"}]. *)
Definition not_found_json : Response :=
  {| resp_status_code := 404; resp_is_json := true;
     resp_json := Some (JDict {[ "message" := JStr "not found" ]}) |}.

(** A 404 with an HTML body. *)
Definition not_found_html : Response :=
  {| resp_status_code := 404; resp_is_json := false; resp_json := None |}.

(** The record [after_request] adds to [world] for [request] and
    [response]. *)
Definition logged (response : Response) : Error :=
  logged_row
    (after_request_kwargs request response JNull
       1699999999990000 1699999999990000 (clock world))
    (clock world).

(** A row as the tests build them: [Error(method=..., endpoint=...,
    status_code=..., request_time=..., duration_ms=...)]. *)
Definition row (method endpoint : string) (status_code request_time : Z)
  (duration_ms : option Z) : Error :=
  {| method := method;
     endpoint := endpoint;
     request_data := JNull;
     request_params := None;
     request_headers := None;
     client_ip := None;
     user_agent := None;
     status_code := status_code;
     response_data := JNull;
     error_message := JNull;
     error_type := None;
     request_time := request_time;
     response_time := None;
     duration_ms := duration_ms;
     session_id := None;
     user_id := None |}.

(** One day in microseconds. *)
Definition day : Z := 86400000000.

(** Four requests: 31 days, 3 days, 2 days and 1 day before the clock of
    [world]. *)
Definition table : gmap Z Error :=
  {[ 1 := row "GET" "/api/test1" 200 (clock world - 31 * day) (Some 10);
     2 := row "POST" "/api/test2" 400 (clock world - 3 * day) (Some 30);
     3 := row "GET" "/api/test1" 200 (clock world - 2 * day) None;
     4 := row "DELETE" "/api/test3" 500 (clock world - 1 * day) (Some 20) ]}.

Definition populated : World := with_errors table world.

(** [get_errors(method='get')] *)
Definition get_filter : Filters :=
  {| f_method := Some "get"; f_endpoint := None; f_status_code := None;
     f_error_type := None; f_start_date := None; f_end_date := None |}.

(** [get_errors(endpoint=e)] *)
Definition endpoint_filter (e : string) : Filters :=
  {| f_method := None; f_endpoint := Some e; f_status_code := None;
     f_error_type := None; f_start_date := None; f_end_date := None |}.

End Sample.

(** ** Further vocabulary *)

(** The rows [get_errors] lists for the filters, all pages together. *)
Definition matching_rows (f : Filters) (w : World) : list (Z * Error) :=
  order_by_request_time_desc (query_all (errors_query f) (errors w)).

(** The rows on one page of [get_errors]. *)
Definition page_of (page per_page : Z) (f : Filters) (w : World)
  : list (Z * Error) :=
  match (get_errors page per_page f w).1 with
  | inr r => pg_errors r
  | inl _ => []
  end.

(** [f] with the filters that are empty texts or the status code 0 left
    out. *)
Definition without_empty (f : Filters) : Filters :=
  {| f_method := match f_method f with Some "" => None | m => m end;
     f_endpoint := match f_endpoint f with Some "" => None | s => s end;
     f_status_code := match f_status_code f with Some 0 => None | c => c end;
     f_error_type := match f_error_type f with Some "" => None | t => t end;
     f_start_date := f_start_date f;
     f_end_date := f_end_date f |}.

(** [f] without its endpoint filter. *)
Definition without_endpoint (f : Filters) : Filters :=
  {| f_method := f_method f;
     f_endpoint := None;
     f_status_code := f_status_code f;
     f_error_type := f_error_type f;
     f_start_date := f_start_date f;
     f_end_date := f_end_date f |}.

(** The sum of the counts of a dictionary. *)
Definition sum_counts (d : gmap string nat) : nat :=
  sum_list (map_to_list d).*2.


(** The responses of the error handlers of the application. *)
Definition app_error_responses : list Response :=
  [bad_request; not_found; method_not_allowed; internal_error;
   handle_exception].

(** The entry [message] of the body of a response. *)
Definition body_message (response : Response) : option json :=
  match resp_json response with
  | Some (JDict d) => d !! "message"
  | _ => None
  end.

(** The filters the listing route gives [get_errors] for a query without
    dates. *)
Definition query_filters (q : ListQuery) : Filters :=
  {| f_method := q_method q;
     f_endpoint := q_endpoint q;
     f_status_code := q_status_code q;
     f_error_type := q_error_type q;
     f_start_date := None;
     f_end_date := None |}.

(** The query has an argument its schema refuses. *)
Definition refused (q : ListQuery) : Prop :=
  (∃ m, q_method q = Some m ∧ m ∉ filter_methods)
  ∨ (∃ c, q_status_code q = Some c ∧ (c < 100 ∨ 599 < c))
  ∨ (∃ p, q_page q = Some p ∧ p < 1)
  ∨ (∃ n, q_per_page q = Some n ∧ (n < 1 ∨ 100 < n)).

(** ** More sample data *)

Module Cases.

(** [POST /api/links] with a JSON body and a session cookie. *)
Definition post_request : Request :=
  {| rq_method := "POST";
     rq_endpoint := Some "links.create_link";
     rq_path := "/api/links";
     rq_is_json := true;
     rq_json := Some (JDict {[ "title" := JStr "Rocq" ]});
     rq_args := ∅;
     rq_headers := {[ "Cookie" := "session=abc123";
                      "Content-Type" := "application/json" ]};
     rq_remote_addr := Some "127.0.0.1";
     rq_user_agent := Some "curl/8.0" |}.

(** The same with a body that is not JSON. *)
Definition malformed_post : Request :=
  {| rq_method := "POST";
     rq_endpoint := Some "links.create_link";
     rq_path := "/api/links";
     rq_is_json := true;
     rq_json := None;
     rq_args := ∅;
     rq_headers := {[ "Content-Type" := "application/json" ]};
     rq_remote_addr := Some "127.0.0.1";
     rq_user_agent := Some "curl/8.0" |}.

(** [GET /api/links] sent with a JSON body. *)
Definition get_with_body : Request :=
  {| rq_method := "GET";
     rq_endpoint := Some "links.get_links";
     rq_path := "/api/links";
     rq_is_json := true;
     rq_json := Some (JDict {[ "title" := JStr "Rocq" ]});
     rq_args := ∅;
     rq_headers := {[ "Content-Type" := "application/json" ]};
     rq_remote_addr := Some "127.0.0.1";
     rq_user_agent := None |}.

Definition created : Response :=
  {| resp_status_code := 201; resp_is_json := true;
     resp_json := Some (JDict {[ "success" := JBool true ]}) |}.

(** The record [after_request] adds to [Sample.world] for a request and a
    response, the request body read as [request_data]. *)
Definition logged (rq : Request) (response : Response) (request_data : json)
  : Error :=
  logged_row
    (after_request_kwargs rq response request_data
       1699999999990000 1699999999990000 (clock Sample.world))
    (clock Sample.world).

(** A query with nothing but a method. *)
Definition method_query (m : string) : ListQuery :=
  {| q_method := Some m; q_endpoint := None; q_status_code := None;
     q_error_type := None; q_start_date := None; q_end_date := None;
     q_page := None; q_per_page := None |}.

(** A query with nothing but a start date. *)
Definition since_query (d : Z) : ListQuery :=
  {| q_method := None; q_endpoint := None; q_status_code := None;
     q_error_type := None; q_start_date := Some d; q_end_date := None;
     q_page := None; q_per_page := None |}.

(** A serialiser that keeps the id, the method and the status code. *)
Definition dump (k : Z) (e : Error) : exn + json :=
  inr (JDict {[ "id" := JNum k; "method" := JStr (method e);
                "status_code" := JNum (status_code e) ]}).

(** A serialiser that fails on every row. *)
Definition failing_dump (k : Z) (e : Error) : exn + json :=
  inl (Raised "TypeError" "cannot convert dictionary update sequence").

Definition validation_message (q : ListQuery) : string := "{...}".

End Cases.
(** * Properties *)

Ltac run_M :=
  unfold mbind, mret, M_bind, M_ret, bind, ret, raise, try_except,
    get_world, put_world, utcnow, print, g_get, session_commit,
    session_rollback in *; simpl in *.

(** ** Strings *)

Lemma truthy_false s : Str.truthy s = false ↔ s = "".
Proof. by destruct s. Qed.

Lemma truthy_true s : Str.truthy s = true ↔ s ≠ "".
Proof. by destruct s. Qed.

Lemma startswith_spec p s :
  Str.startswith p s = true ↔ ∃ b, s = p +:+ b.
Proof.
  revert s. induction p as [|a p IH]; intros s; simpl.
  - split; [by exists s | done].
  - destruct s as [|c s]; simpl.
    + split; [done | by intros [b ?]].
    + case_decide as Hac; subst.
      * rewrite IH. split; intros [b Hb]; exists b.
        -- by rewrite Hb.
        -- by injection Hb.
      * split; [done | intros [b Hb]; by injection Hb].
Qed.

Lemma contains_spec p s :
  Str.contains p s = true ↔ ∃ a b, s = a +:+ p +:+ b.
Proof.
  induction s as [|c s IH]; simpl.
  - rewrite orb_false_r, startswith_spec. split.
    + intros [b Hb]. by exists "", b.
    + intros [a [b Hab]]. destruct a; [by exists b | done].
  - rewrite orb_true_iff, startswith_spec, IH. split.
    + intros [[b Hb] | [a [b Hab]]].
      * by exists "", b.
      * exists (String c a), b. by rewrite Hab.
    + intros [a [b Hab]]. destruct a as [|c' a].
      * left. by exists b.
      * right. exists a, b. by injection Hab.
Qed.

(** *** LIKE *)



Lemma append_nil_r (s : string) : s +:+ "" = s.
Proof.
  induction s as [|c s IH]; [done|].
  change (String c (s +:+ "") = String c s). by rewrite IH.
Qed.

Lemma like_any_eq p x :
  like (String "%" p) x
  = like p x
    || match x with
       | EmptyString => false
       | String _ x' => like (String "%" p) x'
       end.
Proof. by destruct x. Qed.

Lemma like_any_spec p x :
  like (String "%" p) x = true ↔ ∃ a b, x = a +:+ b ∧ like p b = true.
Proof.
  induction x as [|d x IH]; rewrite like_any_eq, orb_true_iff.
  - split.
    + intros [Hp | ?]; [|done]. by exists "", "".
    + intros (a & b & Hx & Hp). left. by destruct a, b.
  - rewrite IH. split.
    + intros [Hp | (a & b & -> & Hp)].
      * by exists "", (String d x).
      * by exists (String d a), b.
    + intros (a & b & Hx & Hp). destruct a as [|c a].
      * left. change (String d x = b) in Hx. by subst b.
      * right. change (String d x = String c (a +:+ b)) in Hx.
        injection Hx as _ ->. by exists a, b.
Qed.

Lemma like_all x : like "%" x = true.
Proof. apply like_any_spec. exists x, "". by rewrite append_nil_r. Qed.



(** ** The table *)

Lemma foldr_max_ge (l : list Z) k : k ∈ l → k ≤ foldr Z.max 0 l.
Proof. induction 1; simpl; lia. Qed.

Lemma next_id_above (t : gmap Z Error) k :
  is_Some (t !! k) → k < next_id t.
Proof.
  intros [e He]. apply elem_of_map_to_list in He.
  assert (Hin : k ∈ (map_to_list t).*1).
  { apply list_elem_of_fmap. by exists (k, e). }
  apply foldr_max_ge in Hin. unfold next_id. lia.
Qed.

Lemma next_id_fresh (t : gmap Z Error) : t !! next_id t = None.
Proof.
  destruct (t !! next_id t) eqn:E; [|done].
  assert (next_id t < next_id t) by (apply next_id_above; eauto). lia.
Qed.

(** ** [log_error] *)

(** The three ways [log_error] ends. *)
Lemma log_error_run a w :
  log_error a w =
    if negb (Str.truthy (arg_method a)) || negb (Str.truthy (arg_endpoint a))
       || (arg_status_code a =? 0)
    then (inl (ValidationError "Method, endpoint, and status_code are required"), w)
    else match commit_fault w with
         | Some msg =>
             (inl (DatabaseError ("Failed to log error: " +:+ msg)), w)
         | None =>
             let k := next_id (errors w) in
             let e := logged_row a (clock w) in
             (inr (k, e), with_errors (<[k := e]> (errors w)) w)
         end.
Proof.
  unfold log_error, session_add_commit. run_M.
  destruct (negb _ || negb _ || _); [done|].
  by destruct (commit_fault w).
Qed.

Lemma required_present a :
  negb (Str.truthy (arg_method a)) || negb (Str.truthy (arg_endpoint a))
    || (arg_status_code a =? 0) = false
  ↔ arg_method a ≠ "" ∧ arg_endpoint a ≠ "" ∧ arg_status_code a ≠ 0.
Proof.
  rewrite !orb_false_iff, !negb_false_iff, !truthy_true, Z.eqb_neq. tauto.
Qed.

Lemma log_error_inv a w k e w' :
  log_error a w = (inr (k, e), w') →
  arg_method a ≠ "" ∧ arg_endpoint a ≠ "" ∧ arg_status_code a ≠ 0 ∧
  commit_fault w = None ∧
  k = next_id (errors w) ∧ e = logged_row a (clock w) ∧
  w' = with_errors (<[k := e]> (errors w)) w.
Proof.
  rewrite log_error_run.
  destruct (negb _ || negb _ || _) eqn:Hreq; [done|].
  apply required_present in Hreq as (? & ? & ?).
  destruct (commit_fault w); [done|]. simpl. by intros [= <- <- <-].
Qed.

Lemma log_error_ok a w :
  arg_method a ≠ "" → arg_endpoint a ≠ "" → arg_status_code a ≠ 0 →
  commit_fault w = None →
  log_error a w =
    (inr (next_id (errors w), logged_row a (clock w)),
     with_errors (<[next_id (errors w) := logged_row a (clock w)]> (errors w)) w).
Proof.
  intros Hm He Hs Hc. rewrite log_error_run.
  assert (Hreq : negb (Str.truthy (arg_method a))
                 || negb (Str.truthy (arg_endpoint a))
                 || (arg_status_code a =? 0) = false)
    by by apply required_present.
  by rewrite Hreq, Hc.
Qed.

(** *** The sanitizer *)

Lemma lower_sensitive name :
  Str.lower name ∈ sensitive_headers ↔ is_sensitive name.
Proof.
  unfold sensitive_headers, is_sensitive, same_header_name.
  rewrite !elem_of_cons, elem_of_nil.
  change (Str.lower "authorization") with "authorization".
  change (Str.lower "cookie") with "cookie".
  change (Str.lower "x-api-key") with "x-api-key".
  tauto.
Qed.

Lemma sanitized_headers_nonempty (h : gmap string string) :
  h ≠ ∅ →
  sanitized_headers (Some h)
  = Some (filter (λ kv, Str.lower kv.1 ∉ sensitive_headers) h).
Proof. intros Hne. unfold sanitized_headers. by case_decide. Qed.

Lemma sanitized_headers_entry h name value :
  header (sanitized_headers h) name = Some value
  ↔ header h name = Some value ∧ ¬ is_sensitive name.
Proof.
  rewrite <- lower_sensitive.
  destruct h as [h|]; simpl; [|split; [done | by intros [? _]]].
  case_decide as Hh; simpl.
  - subst h. rewrite lookup_empty. split; [done | by intros [? _]].
  - by rewrite map_lookup_filter_Some.
Qed.

(** C4.  The record [log_error] persists carries, as headers, exactly the
    entries of the headers it was given whose name is not [authorization],
    [cookie] or [x-api-key] up to case, each with its value; given no headers
    it persists none, not an empty map. *)
Theorem log_error_sanitizes_headers a w k e w' :
  log_error a w = (inr (k, e), w') →
  errors w' !! k = Some e
  ∧ (∀ name value,
       header (request_headers e) name = Some value
       ↔ header (arg_request_headers a) name = Some value ∧ ¬ is_sensitive name)
  ∧ (∀ h, arg_request_headers a = Some h → h ≠ ∅ →
       request_headers e
       = Some (filter (λ kv, ¬ is_sensitive kv.1) h))
  ∧ (arg_request_headers a = None → request_headers e = None).
Proof.
  intros Hrun. apply log_error_inv in Hrun as (_ & _ & _ & _ & -> & -> & ->).
  split_and!; simpl.
  - by rewrite lookup_insert_eq.
  - intros name value. apply sanitized_headers_entry.
  - intros h -> Hne. rewrite sanitized_headers_nonempty by done. f_equal.
    apply map_filter_ext. intros name value _. simpl.
    by rewrite lower_sensitive.
  - by intros ->.
Qed.

Lemma log_error_sanitizes_headers_witness :
  header
    (request_headers
       (logged_row
          (with_request_headers (Some Sample.mixed_headers)
             (Sample.args "POST" "/api/test" 200))
          (clock Sample.world)))
    "Content-Type" = Some "application/json".
Proof.
  pose proof (log_error_sanitizes_headers
                (with_request_headers (Some Sample.mixed_headers)
                   (Sample.args "POST" "/api/test" 200))
                Sample.world 1 _ _ eq_refl) as (_ & Hentries & _).
  apply Hentries. split; [reflexivity|].
  unfold is_sensitive, same_header_name. vm_compute. intros [H | [H | H]]; discriminate H.
Defined.

(** *** Required fields *)

(** C5.  With an empty method, an empty endpoint or status code 0,
    [log_error] raises [ValidationError] and leaves the world, the table in
    it, as it was.  With the three present, on a backend that takes the
    commit, it returns a row it has stored under a key that was free, whose
    method is the given one in upper case and whose request time is the one
    given, the time of the call when none is; on a backend that fails the
    commit it raises [DatabaseError] and the table is as it was. *)
Theorem log_error_required_fields a w :
  (arg_method a = "" ∨ arg_endpoint a = "" ∨ arg_status_code a = 0 →
   ∃ msg, log_error a w = (inl (ValidationError msg), w))
  ∧ (arg_method a ≠ "" → arg_endpoint a ≠ "" → arg_status_code a ≠ 0 →
     (commit_fault w = None →
      ∃ k e w',
        log_error a w = (inr (k, e), w')
        ∧ errors w !! k = None
        ∧ errors w' = <[k := e]> (errors w)
        ∧ method e = Str.upper (arg_method a)
        ∧ endpoint e = arg_endpoint a
        ∧ status_code e = arg_status_code a
        ∧ request_time e
          = match arg_request_time a with Some t => t | None => clock w end)
     ∧ (commit_fault w ≠ None →
        ∃ msg, log_error a w = (inl (DatabaseError msg), w))).
Proof.
  split.
  - intros Hbad. eexists. rewrite log_error_run.
    destruct (negb _ || negb _ || _) eqn:Hreq; [done|].
    apply required_present in Hreq. tauto.
  - intros Hm He Hs. split.
    + intros Hc. eexists _, _, _.
      split; [by apply log_error_ok|].
      split; [apply next_id_fresh|].
      by split_and!.
    + intros Hc. rewrite log_error_run.
      assert (Hreq : negb (Str.truthy (arg_method a))
                     || negb (Str.truthy (arg_endpoint a))
                     || (arg_status_code a =? 0) = false)
        by by apply required_present.
      rewrite Hreq. destruct (commit_fault w); [by eexists | done].
Qed.

Lemma log_error_required_fields_witness :
  (∃ msg, log_error (Sample.args "" "" 0) Sample.world
          = (inl (ValidationError msg), Sample.world))
  ∧ (∃ k e w',
       log_error (Sample.args "get" "/api/test" 200) Sample.world
       = (inr (k, e), w')
       ∧ errors w' !! k = Some e
       ∧ method e = "GET"
       ∧ request_time e = clock Sample.world).
Proof.
  split.
  - apply (log_error_required_fields (Sample.args "" "" 0) Sample.world).
    left. reflexivity.
  - destruct (log_error_required_fields
                (Sample.args "get" "/api/test" 200) Sample.world) as [_ Hok].
    destruct (Hok ltac:(discriminate) ltac:(discriminate) ltac:(discriminate))
      as [Hok' _].
    destruct (Hok' eq_refl) as (k & e & w' & Hrun & _ & Hw' & Hm & _ & _ & Ht).
    exists k, e, w'. split; [exact Hrun|].
    split; [rewrite Hw'; apply lookup_insert_eq|].
    split; [exact Hm | exact Ht].
Defined.

(** *** The range of status codes *)

(** The only status code [log_error] refuses is 0: any other is persisted
    as given. *)
Lemma log_error_persists_any_status a w :
  arg_method a ≠ "" → arg_endpoint a ≠ "" → arg_status_code a ≠ 0 →
  commit_fault w = None →
  ∃ k e w',
    log_error a w = (inr (k, e), w') ∧ errors w' !! k = Some e
    ∧ status_code e = arg_status_code a.
Proof.
  intros Hm He Hs Hc. eexists _, _, _.
  split; [by apply log_error_ok|]. simpl. by rewrite lookup_insert_eq.
Qed.

(** C6, at the failing input.  [log_error(method='GET',
    endpoint='/api/test', status_code=700)] on an empty table stores a row
    with status code 700, outside 100..599. *)
Theorem log_error_status_700_persisted :
  ∃ k e w',
    log_error (Sample.args "GET" "/api/test" 700) Sample.world
    = (inr (k, e), w')
    ∧ errors w' !! k = Some e
    ∧ status_code e = 700
    ∧ ¬ (100 ≤ status_code e ≤ 599).
Proof.
  destruct (log_error_persists_any_status
              (Sample.args "GET" "/api/test" 700) Sample.world)
    as (k & e & w' & Hrun & Hk & Hs); try done.
  exists k, e, w'. split_and!; try done. rewrite Hs. simpl. lia.
Qed.

(** *** Empty headers *)

Lemma all_sensitive_filtered (h : gmap string string) :
  (∀ name, is_Some (h !! name) → is_sensitive name) →
  filter (λ kv, Str.lower kv.1 ∉ sensitive_headers) h = ∅.
Proof.
  intros Hall. apply map_empty. intros name.
  apply map_lookup_filter_None. right. intros value Hv. simpl.
  rewrite lower_sensitive. intros Hn. apply Hn, Hall. eauto.
Qed.

(** C10.  [log_error] called with an empty headers map does what it does
    called with no headers, and the row it persists has no headers (null);
    called with a map that is not empty and whose every name is sensitive, it
    persists the empty map. *)
Theorem log_error_empty_headers a w :
  log_error (with_request_headers (Some ∅) a) w
  = log_error (with_request_headers None a) w
  ∧ (∀ k e w',
       log_error a w = (inr (k, e), w') →
       errors w' !! k = Some e
       ∧ (arg_request_headers a = Some ∅ → request_headers e = None)
       ∧ (∀ h, arg_request_headers a = Some h → h ≠ ∅ →
            (∀ name, is_Some (h !! name) → is_sensitive name) →
            request_headers e = Some ∅)).
Proof.
  split; [by rewrite !log_error_run|].
  intros k e w' Hrun.
  apply log_error_inv in Hrun as (_ & _ & _ & _ & -> & -> & ->).
  split_and!; simpl.
  - by rewrite lookup_insert_eq.
  - by intros ->.
  - intros h -> Hne Hall.
    rewrite sanitized_headers_nonempty by done.
    by rewrite all_sensitive_filtered.
Qed.

Lemma log_error_empty_headers_witness :
  request_headers
    (logged_row
       (with_request_headers (Some ∅) (Sample.args "GET" "/api/test" 200))
       (clock Sample.world)) = None
  ∧ request_headers
      (logged_row
         (with_request_headers (Some Sample.secret_headers)
            (Sample.args "GET" "/api/test" 200))
         (clock Sample.world)) = Some ∅.
Proof.
  split.
  - destruct (log_error_empty_headers
                (with_request_headers (Some ∅) (Sample.args "GET" "/api/test" 200))
                Sample.world) as [_ H].
    destruct (H 1 _ _ eq_refl) as (_ & Hnone & _).
    apply Hnone. reflexivity.
  - destruct (log_error_empty_headers
                (with_request_headers (Some Sample.secret_headers)
                   (Sample.args "GET" "/api/test" 200))
                Sample.world) as [_ H].
    destruct (H 1 _ _ eq_refl) as (_ & _ & Hall).
    apply (Hall Sample.secret_headers); [reflexivity | by vm_compute |].
    intros name [value Hv]. unfold Sample.secret_headers in Hv.
    apply lookup_insert_Some in Hv as [[<- _] | [_ Hv]].
    { left. reflexivity. }
    apply lookup_singleton_Some in Hv as [<- _].
    right. left. reflexivity.
Defined.

(** ** The interceptor *)

Lemma should_skip_spec endpoint :
  _should_skip_logging endpoint = true ↔ skip_listed endpoint.
Proof.
  unfold _should_skip_logging, skip_listed, skip_patterns.
  rewrite existsb_exists.
  split; intros (p & Hin & Hc); exists p;
    (split; [by apply list_elem_of_In | by apply contains_spec]).
Qed.

(** Closes a case in which the hook ends without a new row. *)
Ltac table_unchanged := eexists; split_and!; [done..|by left].

(** What [after_request] does to the table: it returns the response it was
    given, and the table either is as before or has one more row, built from
    the request and the response, under the next key. *)
Lemma after_request_cases rq response w :
  ∃ w',
    after_request rq response w = (inr response, w')
    ∧ commit_fault w' = commit_fault w
    ∧ (errors w' = errors w
       ∨ ∃ request_data start start_datetime,
           _should_skip_logging (resolved_endpoint rq) = false
           ∧ commit_fault w = None
           ∧ errors w'
             = <[next_id (errors w) :=
                   logged_row
                     (after_request_kwargs rq response request_data
                        start start_datetime (clock w))
                     (clock w)]> (errors w)).
Proof.
  unfold after_request, _log_request_async, request_get_json, resolved_endpoint.
  run_M.
  destruct (g_request_start_time w) as [start|]; [|table_unchanged].
  destruct (_should_skip_logging _) eqn:Hskip; [table_unchanged|].
  destruct (error_details response) as [[rd em] et] eqn:Hdetails.
  destruct (bool_decide _ && rq_is_json rq); [destruct (rq_json rq)|]; run_M;
    try table_unchanged;
    (destruct (g_request_start_datetime w) as [start_datetime|];
     [|table_unchanged]);
    rewrite log_error_run; simpl;
    (destruct (negb _ || negb _ || _); [table_unchanged|]);
    (destruct (commit_fault w) eqn:Hfault; simpl; [table_unchanged|]);
    (eexists; split_and!; [done..|]; right; eexists _, start, start_datetime;
     split_and!; try done; simpl; unfold after_request_kwargs, logged_row;
     rewrite Hdetails; done).
Qed.

(** When nothing raises on the way, [after_request] stores the row. *)
Lemma after_request_healthy rq response w start start_datetime request_data :
  g_request_start_time w = Some start →
  g_request_start_datetime w = Some start_datetime →
  _should_skip_logging (resolved_endpoint rq) = false →
  after_request_body rq = Some request_data →
  rq_method rq ≠ "" → resolved_endpoint rq ≠ "" →
  resp_status_code response ≠ 0 →
  commit_fault w = None →
  ∃ w',
    after_request rq response w = (inr response, w')
    ∧ errors w'
      = <[next_id (errors w) :=
            logged_row
              (after_request_kwargs rq response request_data
                 start start_datetime (clock w))
              (clock w)]> (errors w).
Proof.
  intros Hstart Hdt Hskip Hbody Hm He Hs Hfault.
  unfold after_request, _log_request_async, request_get_json.
  unfold resolved_endpoint, after_request_body in *.
  run_M. rewrite Hstart, Hskip.
  destruct (error_details response) as [[rd em] et] eqn:Hdetails.
  destruct (bool_decide _ && rq_is_json rq);
    [rewrite Hbody|injection Hbody as <-]; run_M;
    rewrite Hdt, log_error_ok by done; simpl;
    (eexists; split; [done|]); simpl;
    unfold after_request_kwargs, logged_row; by rewrite Hdetails.
Qed.

Lemma after_request_skips rq response w :
  _should_skip_logging (resolved_endpoint rq) = true →
  ∃ w', after_request rq response w = (inr response, w')
        ∧ errors w' = errors w.
Proof.
  intros Hskip.
  destruct (after_request_cases rq response w)
    as (w' & Hrun & _ & [Hsame | (? & ? & ? & Hno & _)]).
  - by exists w'.
  - congruence.
Qed.

(** The same for [teardown_appcontext]. *)
Lemma teardown_cases rq exception w :
  ∃ w',
    teardown_appcontext rq exception w = (inr tt, w')
    ∧ commit_fault w' = commit_fault w
    ∧ (errors w' = errors w
       ∨ ∃ exc request_data start start_datetime,
           exception = Some exc
           ∧ commit_fault w = None
           ∧ errors w'
             = <[next_id (errors w) :=
                   logged_row
                     (teardown_kwargs rq exc request_data
                        start start_datetime (clock w))
                     (clock w)]> (errors w)).
Proof.
  destruct exception as [exc|]; [|table_unchanged].
  unfold teardown_appcontext, _log_request_async, request_get_json.
  run_M.
  destruct (g_request_start_time w) as [start|]; [|table_unchanged].
  destruct (rq_is_json rq); [destruct (rq_json rq)|]; run_M;
    try table_unchanged;
    (destruct (g_request_start_datetime w) as [start_datetime|];
     [|table_unchanged]);
    rewrite log_error_run; simpl;
    (destruct (negb _ || negb _ || _); [table_unchanged|]);
    (destruct (commit_fault w) eqn:Hfault; simpl; [table_unchanged|]);
    (eexists; split_and!; [done..|]; right;
     eexists exc, _, start, start_datetime; by split_and!).
Qed.

Lemma teardown_none rq w : teardown_appcontext rq None w = (inr tt, w).
Proof. done. Qed.

Lemma teardown_healthy rq exc w start start_datetime request_data :
  g_request_start_time w = Some start →
  g_request_start_datetime w = Some start_datetime →
  teardown_body rq = Some request_data →
  rq_method rq ≠ "" → resolved_endpoint rq ≠ "" →
  commit_fault w = None →
  ∃ w',
    teardown_appcontext rq (Some exc) w = (inr tt, w')
    ∧ errors w'
      = <[next_id (errors w) :=
            logged_row
              (teardown_kwargs rq exc request_data
                 start start_datetime (clock w))
              (clock w)]> (errors w).
Proof.
  intros Hstart Hdt Hbody Hm He Hfault.
  unfold teardown_appcontext, _log_request_async, request_get_json.
  unfold resolved_endpoint, teardown_body in *.
  run_M. rewrite Hstart.
  destruct (rq_is_json rq);
    [rewrite Hbody|injection Hbody as <-]; run_M;
    rewrite Hdt, log_error_ok by done; simpl;
    by (eexists; split).
Qed.

(** *** Logging never raises *)

Lemma log_request_async_total kwargs w :
  ∃ w', _log_request_async kwargs w = (inr tt, w')
        ∧ commit_fault w' = commit_fault w.
Proof.
  unfold _log_request_async. run_M. rewrite log_error_run.
  destruct (negb _ || negb _ || _); [by eexists|].
  destruct (commit_fault w) eqn:Hfault; by eexists.
Qed.

Lemma log_error_storage_failure kwargs w msg :
  commit_fault w = Some msg → ∃ e, log_error kwargs w = (inl e, w).
Proof.
  intros Hfault. rewrite log_error_run, Hfault.
  destruct (negb _ || negb _ || _); by eexists.
Qed.

(** C1.  Whatever the request, the response and the world, [after_request]
    raises nothing and returns the response it was given, and so does
    [_log_request_async] return.  In particular on a backend that fails the
    commit, where [log_error] raises: the response is returned all the same
    and the table is as it was. *)
Theorem after_request_returns_response rq response w :
  (∃ w', after_request rq response w = (inr response, w'))
  ∧ (∀ kwargs, ∃ w', _log_request_async kwargs w = (inr tt, w'))
  ∧ (∀ msg, commit_fault w = Some msg →
       (∀ kwargs, ∃ e, log_error kwargs w = (inl e, w))
       ∧ ∃ w', after_request rq response w = (inr response, w')
               ∧ errors w' = errors w).
Proof.
  destruct (after_request_cases rq response w) as (w' & Hrun & _ & Htable).
  split_and!.
  - by exists w'.
  - intros kwargs.
    destruct (log_request_async_total kwargs w) as (w1 & H1 & _). by exists w1.
  - intros msg Hfault. split.
    + intros kwargs. by apply log_error_storage_failure with msg.
    + exists w'. split; [done|].
      destruct Htable as [Hsame | (? & ? & ? & _ & Hnone & _)]; [done|].
      congruence.
Qed.

Lemma after_request_returns_response_witness :
  ∃ w', after_request Sample.request Sample.ok_response Sample.failing_world
        = (inr Sample.ok_response, w')
        ∧ errors w' = errors Sample.failing_world.
Proof.
  destruct (after_request_returns_response
              Sample.request Sample.ok_response Sample.failing_world)
    as (_ & _ & Hfail).
  destruct (Hfail "database is locked" eq_refl) as [_ Hresp].
  exact Hresp.
Defined.

(** *** The outcome classifier *)

Lemma error_details_cases response :
  (400 ≤ resp_status_code response → resp_is_json response = true →
   ∀ d, resp_json response = Some (JDict d) →
     error_details response
     = (JDict d, default (JStr "Unknown error") (d !! "message"),
        Some "HTTPError"))
  ∧ (400 ≤ resp_status_code response → resp_is_json response = true →
     resp_json response = None →
     error_details response
     = (JNull, JStr ("HTTP " +:+ Str.of_Z (resp_status_code response)),
        Some "HTTPError"))
  ∧ (400 ≤ resp_status_code response → resp_is_json response = false →
     error_details response = (JNull, JNull, None))
  ∧ (resp_status_code response < 400 →
     error_details response = (JNull, JNull, None)).
Proof.
  unfold error_details, response_get_json.
  split_and!.
  - intros Hs -> d ->. by rewrite (proj2 (Z.leb_le _ _) Hs).
  - intros Hs -> ->. by rewrite (proj2 (Z.leb_le _ _) Hs).
  - intros Hs ->. by rewrite (proj2 (Z.leb_le _ _) Hs).
  - intros Hs. by rewrite (proj2 (Z.leb_gt _ _) Hs).
Qed.

(** A body that is JSON but not an object has no [get]: the handler runs
    after [response_data] was assigned. *)
Lemma error_details_not_object response j :
  400 ≤ resp_status_code response → resp_is_json response = true →
  resp_json response = Some j → (∀ d, j ≠ JDict d) →
  error_details response
  = (j, JStr ("HTTP " +:+ Str.of_Z (resp_status_code response)),
     Some "HTTPError").
Proof.
  intros Hs Hjson Hbody Hj. unfold error_details, response_get_json.
  rewrite (proj2 (Z.leb_le _ _) Hs), Hjson, Hbody.
  destruct j; try done. by destruct (Hj d).
Qed.

(** A record [after_request] adds carries the details of the response. *)
Lemma after_request_logs_details rq response w e :
  after_request_logs rq response w e →
  (response_data e, error_message e, error_type e) = error_details response.
Proof.
  intros [k Hk]. unfold new_records in Hk.
  apply map_lookup_filter_Some in Hk as [Hk Hfree]. simpl in Hfree.
  destruct (after_request_cases rq response w)
    as (w' & Hrun & _ & [Hsame | (rd & st & dt & _ & _ & Hins)]);
    rewrite Hrun in Hk; simpl in Hk.
  - rewrite Hsame in Hk. congruence.
  - rewrite Hins in Hk. apply lookup_insert_Some in Hk as [[_ <-] | [_ Hk]].
    + simpl. by destruct (error_details response) as [[? ?] ?].
    + congruence.
Qed.

(** C2, as the code has it.  In a record the interceptor produces for a
    response with status 400 or more: when the response declares JSON and its
    body is a JSON object, [response_data] is that object, [error_message]
    its [message] field, ["Unknown error"] without one, and [error_type]
    ["HTTPError"]; when the response declares JSON and its body is not valid
    JSON, [error_message] is ["HTTP <status>"], [error_type] ["HTTPError"]
    and [response_data] null; when the response does not declare JSON the
    three are null.  For a status below 400 the three are null. *)
Theorem after_request_error_details rq response w e :
  after_request_logs rq response w e →
  (400 ≤ resp_status_code response → resp_is_json response = true →
   ∀ d, resp_json response = Some (JDict d) →
     (response_data e, error_message e, error_type e)
     = (JDict d, default (JStr "Unknown error") (d !! "message"),
        Some "HTTPError"))
  ∧ (400 ≤ resp_status_code response → resp_is_json response = true →
     resp_json response = None →
     (response_data e, error_message e, error_type e)
     = (JNull, JStr ("HTTP " +:+ Str.of_Z (resp_status_code response)),
        Some "HTTPError"))
  ∧ (400 ≤ resp_status_code response → resp_is_json response = false →
     (response_data e, error_message e, error_type e) = (JNull, JNull, None))
  ∧ (resp_status_code response < 400 →
     (response_data e, error_message e, error_type e) = (JNull, JNull, None)).
Proof.
  intros Hlogs. rewrite (after_request_logs_details _ _ _ _ Hlogs).
  apply error_details_cases.
Qed.

Lemma sample_request_logs response :
  400 ≤ resp_status_code response →
  new_records Sample.world
    (after_request Sample.request response Sample.world).2 !! 1
  = Some (Sample.logged response).
Proof.
  intros Hs.
  destruct (after_request_healthy Sample.request response Sample.world
              1699999999990000 1699999999990000 JNull)
    as (w' & Hrun & Htable); try done.
  { lia. }
  rewrite Hrun. simpl. unfold new_records. rewrite Htable.
  apply map_lookup_filter_Some. split; [|done].
  apply lookup_insert_eq.
Qed.

Lemma after_request_error_details_witness :
  (response_data (Sample.logged Sample.not_found_json),
   error_message (Sample.logged Sample.not_found_json),
   error_type (Sample.logged Sample.not_found_json))
  = (JDict {[ "message" := JStr "not found" ]}, JStr "not found",
     Some "HTTPError").
Proof.
  destruct (after_request_error_details
              Sample.request Sample.not_found_json Sample.world
              (Sample.logged Sample.not_found_json)) as (Hobject & _).
  { exists 1. apply sample_request_logs. simpl. lia. }
  rewrite (Hobject ltac:(simpl; lia) eq_refl _ eq_refl).
  vm_compute. reflexivity.
Defined.

(** C2 as stated fails: the record for a 404 whose body is HTML, hence not
    valid JSON, has a null [error_message] and a null [error_type]. *)
Lemma after_request_error_details_counterexample :
  ¬ (∀ rq response w e,
       after_request_logs rq response w e →
       400 ≤ resp_status_code response → resp_json response = None →
       (response_data e, error_message e, error_type e)
       = (JNull, JStr ("HTTP " +:+ Str.of_Z (resp_status_code response)),
          Some "HTTPError")).
Proof.
  intros Hclaim.
  specialize (Hclaim Sample.request Sample.not_found_html Sample.world
                (Sample.logged Sample.not_found_html)).
  assert (Hs : 400 ≤ resp_status_code Sample.not_found_html) by (simpl; lia).
  specialize (Hclaim (ex_intro _ 1 (sample_request_logs _ Hs)) Hs eq_refl).
  discriminate Hclaim.
Qed.

(** *** One record per request *)

Lemma new_records_unchanged w w' :
  errors w' = errors w → size (new_records w w') = 0%nat.
Proof.
  intros Hsame. apply map_size_empty_iff, map_empty. intros k.
  unfold new_records. apply map_lookup_filter_None. right.
  intros e He. simpl. rewrite Hsame in He. congruence.
Qed.

Lemma new_records_one w w' e :
  errors w' = <[next_id (errors w) := e]> (errors w) →
  size (new_records w w') = 1%nat.
Proof.
  intros Hins. unfold new_records. rewrite Hins.
  rewrite map_filter_insert_True by apply next_id_fresh.
  rewrite map_size_insert_None.
  - f_equal. apply map_size_empty_iff, map_empty. intros k.
    apply map_lookup_filter_None. right. intros e' He'. simpl. congruence.
  - apply map_lookup_filter_None. left. apply next_id_fresh.
Qed.

Lemma request_lifecycle_run rq elapsed outcome w :
  request_lifecycle rq elapsed outcome w
  = (inr (dispatched outcome),
     (after_request rq (dispatched outcome) (started elapsed w)).2).
Proof.
  unfold request_lifecycle, before_request, tick. run_M.
  fold (started elapsed w).
  destruct (after_request_cases rq (dispatched outcome) (started elapsed w))
    as (w' & Hrun & _).
  unfold mbind, M_bind, bind in Hrun. by rewrite Hrun.
Qed.

Lemma handle_user_exception_status exc :
  resp_status_code (handle_user_exception exc) ≠ 0.
Proof.
  destruct exc as [| |name msg]; simpl; [done..|].
  by repeat case_match.
Qed.

Lemma after_request_body_readable rq :
  (rq_is_json rq = true → is_Some (rq_json rq)) →
  is_Some (after_request_body rq).
Proof.
  intros Hjson. unfold after_request_body.
  destruct (bool_decide _); simpl; [|by eexists].
  destruct (rq_is_json rq); [by apply Hjson | by eexists].
Qed.

(** C3, as the code has it.  A request lifecycle produces at most one
    record, and none when the backend fails the commit.  When nothing raises
    while the record is built and persisted (the backend takes the commit,
    method and endpoint are not empty, the status code of the response of
    the view is not 0, a request body that declares JSON can be decoded),
    it produces, whether the view completes or aborts, exactly one for an
    endpoint that is not skip-listed and none for a skip-listed one. *)
Theorem request_lifecycle_records rq elapsed outcome w :
  (records_produced (request_lifecycle rq elapsed outcome) w ≤ 1)%nat
  ∧ (commit_fault w ≠ None →
     records_produced (request_lifecycle rq elapsed outcome) w = 0%nat)
  ∧ (commit_fault w = None →
     rq_method rq ≠ "" → resolved_endpoint rq ≠ "" →
     (rq_is_json rq = true → is_Some (rq_json rq)) →
     match outcome with
     | Completed response => resp_status_code response ≠ 0
     | Aborted _ => True
     end →
     (skip_listed (resolved_endpoint rq) →
      records_produced (request_lifecycle rq elapsed outcome) w = 0%nat)
     ∧ (¬ skip_listed (resolved_endpoint rq) →
        records_produced (request_lifecycle rq elapsed outcome) w = 1%nat)).
Proof.
  unfold records_produced. rewrite request_lifecycle_run. simpl.
  destruct (after_request_cases rq (dispatched outcome) (started elapsed w))
    as (w' & Hrun & _ & Htable).
  rewrite Hrun. simpl. split_and!.
  - destruct Htable as [Hsame | (? & ? & ? & _ & _ & Hins)].
    + rewrite (new_records_unchanged w w' Hsame). lia.
    + rewrite (new_records_one w w' _ Hins). lia.
  - intros Hfault. destruct Htable as [Hsame | (? & ? & ? & _ & Hnone & _)].
    + apply (new_records_unchanged w w' Hsame).
    + done.
  - intros Hfault Hm He Hjson Hs.
    assert (resp_status_code (dispatched outcome) ≠ 0) as Hstatus.
    { destruct outcome; [done|]. apply handle_user_exception_status. }
    split.
    + intros Hskip. apply should_skip_spec in Hskip.
      destruct (after_request_skips rq (dispatched outcome)
                  (started elapsed w) Hskip) as (w1 & Hrun1 & Hsame).
      rewrite Hrun in Hrun1. injection Hrun1 as <-.
      apply (new_records_unchanged w w' Hsame).
    + intros Hskip. rewrite <- should_skip_spec in Hskip.
      apply not_true_is_false in Hskip.
      destruct (after_request_body_readable rq Hjson) as [rd Hrd].
      destruct (after_request_healthy rq (dispatched outcome)
                  (started elapsed w) (clock w) (clock w) rd)
        as (w1 & Hrun1 & Hins); try done.
      rewrite Hrun in Hrun1. injection Hrun1 as <-.
      apply (new_records_one w w' _ Hins).
Qed.

Lemma sample_request_not_skip_listed :
  ¬ skip_listed (resolved_endpoint Sample.request).
Proof. rewrite <- should_skip_spec. by vm_compute. Qed.

Lemma health_request_skip_listed :
  skip_listed (resolved_endpoint Sample.health_request).
Proof. rewrite <- should_skip_spec. by vm_compute. Qed.

Lemma request_lifecycle_records_witness :
  records_produced
    (request_lifecycle Sample.request 5000 (Completed Sample.ok_response))
    Sample.world = 1%nat
  ∧ records_produced
      (request_lifecycle Sample.health_request 5000
         (Completed Sample.ok_response))
      Sample.world = 0%nat
  ∧ records_produced
      (request_lifecycle Sample.request 5000
         (Aborted (Raised "RuntimeError" "boom")))
      Sample.world = 1%nat
  ∧ records_produced
      (request_lifecycle Sample.health_request 5000
         (Aborted (Raised "RuntimeError" "boom")))
      Sample.world = 0%nat
  ∧ records_produced
      (request_lifecycle Sample.request 5000 (Completed Sample.ok_response))
      Sample.failing_world = 0%nat.
Proof.
  split_and!.
  - destruct (request_lifecycle_records Sample.request 5000
                (Completed Sample.ok_response) Sample.world) as (_ & _ & H).
    apply H; try done. apply sample_request_not_skip_listed.
  - destruct (request_lifecycle_records Sample.health_request 5000
                (Completed Sample.ok_response) Sample.world) as (_ & _ & H).
    apply H; try done. apply health_request_skip_listed.
  - destruct (request_lifecycle_records Sample.request 5000
                (Aborted (Raised "RuntimeError" "boom")) Sample.world)
      as (_ & _ & H).
    apply H; try done. apply sample_request_not_skip_listed.
  - destruct (request_lifecycle_records Sample.health_request 5000
                (Aborted (Raised "RuntimeError" "boom")) Sample.world)
      as (_ & _ & H).
    apply H; try done. apply health_request_skip_listed.
  - destruct (request_lifecycle_records Sample.request 5000
                (Completed Sample.ok_response) Sample.failing_world)
      as (_ & H & _).
    apply H. discriminate.
Defined.

(** C3 as stated fails: on a backend that fails the commit, the request to
    [links.get_links], which is not skip-listed, leaves no record. *)
Lemma request_lifecycle_records_counterexample :
  ¬ (∀ rq elapsed outcome w,
       (skip_listed (resolved_endpoint rq) →
        records_produced (request_lifecycle rq elapsed outcome) w = 0%nat)
       ∧ (¬ skip_listed (resolved_endpoint rq) →
          records_produced (request_lifecycle rq elapsed outcome) w = 1%nat)).
Proof.
  intros Hclaim.
  destruct (Hclaim Sample.request 5000 (Completed Sample.ok_response)
              Sample.failing_world) as [_ Hone].
  specialize (Hone sample_request_not_skip_listed).
  vm_compute in Hone. discriminate Hone.
Qed.

(** ** The query engine *)

Lemma selects_query_filter c q e :
  selects (query_filter c q) e = true
  ↔ selects q e = true ∧ c e = true.
Proof.
  unfold selects, query_filter.
  rewrite forallb_app. simpl. rewrite andb_true_r. apply andb_true_iff.
Qed.

Lemma selects_filter_if {A} (truthy : A → bool) x
    (c : A → Error → bool) q e :
  selects (filter_if truthy x c q) e = true
  ↔ selects q e = true
    ∧ (∀ v, x = Some v → truthy v = true → c v e = true).
Proof.
  unfold filter_if. destruct x as [v|].
  - destruct (truthy v) eqn:Hv.
    + rewrite selects_query_filter. split; intros [Hq Hc].
      * split; [done|]. by intros v' [= <-] _.
      * split; [done|]. by apply Hc.
    + split; [|by intros [Hq _]].
      intros Hq. split; [done|]. intros v' [= <-] Ht. congruence.
  - split; [|by intros [Hq _]].
    intros Hq. split; [done|]. by intros v' [=].
Qed.


#[global] Instance by_request_time_desc_trans :
  Transitive by_request_time_desc.
Proof. unfold by_request_time_desc. intros x y z. lia. Qed.

#[global] Instance by_request_time_desc_total : Total by_request_time_desc.
Proof. unfold by_request_time_desc. intros x y. lia. Qed.

Lemma elem_of_query_all q t k e :
  (k, e) ∈ query_all q t ↔ t !! k = Some e ∧ selects q e = true.
Proof.
  unfold query_all. rewrite list_elem_of_filter, elem_of_map_to_list.
  simpl. tauto.
Qed.



Lemma paginate_run rows page per_page :
  1 ≤ page → 1 ≤ per_page →
  paginate rows page per_page
  = {| items := take (Z.to_nat per_page)
                  (drop (Z.to_nat ((page - 1) * per_page)) rows);
       total := Z.of_nat (length rows);
       pages := (Z.of_nat (length rows) + per_page - 1) / per_page;
       has_next := page <? (Z.of_nat (length rows) + per_page - 1) / per_page;
       has_prev := 1 <? page |}.
Proof.
  intros Hpage Hper. unfold paginate.
  by rewrite (proj2 (Z.ltb_ge page 1)), (proj2 (Z.ltb_ge per_page 1)) by lia.
Qed.

Lemma get_errors_run page per_page f w :
  get_errors page per_page f w
  = (inr (let pagination :=
            paginate
              (order_by_request_time_desc
                 (query_all (errors_query f) (errors w)))
              page per_page in
          {| pg_errors := items pagination;
             pg_total := total pagination;
             pg_page := page;
             pg_per_page := per_page;
             pg_pages := pages pagination;
             pg_has_next := has_next pagination;
             pg_has_prev := has_prev pagination |}), w).
Proof. done. Qed.





(** The rows of the sample table with method GET, most recent first, and a
    page beyond the last. *)
Lemma get_errors_sample :
  (∃ r, get_errors 1 50 Sample.get_filter Sample.populated
        = (inr r, Sample.populated)
        ∧ pg_errors r
          = [(3, Sample.row "GET" "/api/test1" 200
                   (clock Sample.world - 2 * Sample.day) None);
             (1, Sample.row "GET" "/api/test1" 200
                   (clock Sample.world - 31 * Sample.day) (Some 10))]
        ∧ pg_total r = 2)
  ∧ (∃ r, get_errors 7 50 Sample.get_filter Sample.populated
          = (inr r, Sample.populated)
          ∧ pg_errors r = [] ∧ pg_has_next r = false).
Proof. split; (eexists; split; [reflexivity | by vm_compute]). Qed.

(** ** Retention *)

Lemma delete_old_errors_run days w :
  cutoff_in_range (clock w) days →
  delete_old_errors days w =
    match commit_fault w with
    | Some msg =>
        (inl (DatabaseError ("Failed to delete old error logs: " +:+ msg)), w)
    | None =>
        (inr (size (filter (λ kr, request_time kr.2
                                  < days_before (clock w) days) (errors w))),
         with_errors
           (filter (λ kr, ¬ request_time kr.2 < days_before (clock w) days)
              (errors w)) w)
    end.
Proof.
  intros [Hdays Hcutoff]. unfold days_before in *.
  unfold delete_old_errors, timedelta_days, datetime_sub.
  rewrite (proj2 (Z.leb_le _ _) Hdays). run_M.
  rewrite (proj2 (Z.leb_le _ _) (proj1 Hcutoff)).
  rewrite (proj2 (Z.leb_le _ _) (proj2 Hcutoff)). simpl.
  by destruct (commit_fault w).
Qed.

(** A cut-off that no [datetime] can hold: the subtraction raises, and
    nothing has been deleted. *)
Lemma delete_old_errors_overflow days w :
  ¬ cutoff_in_range (clock w) days →
  ∃ msg,
    delete_old_errors days w
    = (inl (DatabaseError ("Failed to delete old error logs: " +:+ msg)), w)
    ∧ (Z.abs days ≤ 999999999 → msg = "date value out of range").
Proof.
  intros Hout. unfold cutoff_in_range, days_before in Hout.
  unfold delete_old_errors, timedelta_days, datetime_sub.
  destruct (Z.abs days <=? 999999999) eqn:Hdays.
  - apply Z.leb_le in Hdays. run_M.
    destruct ((datetime_min <=? clock w - days * 86400000000)
              && (clock w - days * 86400000000 <=? datetime_max)) eqn:Hcut.
    + apply andb_true_iff in Hcut as [?%Z.leb_le ?%Z.leb_le]. lia.
    + by eexists.
  - apply Z.leb_gt in Hdays. run_M.
    destruct (Z.abs days <? 2 ^ 31); eexists; (split; [done|lia]).
Qed.

Lemma get_error_by_id_run k w :
  get_error_by_id k w = (inr (errors w !! k), w).
Proof. done. Qed.

Lemma cleanup_old_errors_run days w :
  1 ≤ days →
  cleanup_old_errors (Some days) w
  = match delete_old_errors days w with
    | (inr n, w') =>
        (inr (success_response
                (JDict {[ "deleted_count" := JNum (Z.of_nat n);
                          "days_kept" := JNum days ]})
                ("Successfully deleted " +:+ Str.of_Z (Z.of_nat n)
                   +:+ " old error logs")), w')
    | (inl (DatabaseError m), w') => (inr (error_response 500 m), w')
    | (inl e, w') =>
        (inr (error_response 500 ("Internal server error: " +:+ exn_str e)),
         w')
    end.
Proof.
  intros Hdays. unfold cleanup_old_errors.
  unfold mbind, M_bind, bind, try_except. simpl.
  rewrite (proj2 (Z.ltb_ge days 1) Hdays).
  by destruct (delete_old_errors days w) as [[[]|n] w'].
Qed.


Lemma sample_cutoff_in_range : cutoff_in_range (clock Sample.populated) 30.
Proof. unfold cutoff_in_range, days_before. by vm_compute. Qed.



(** ** Statistics *)

Section group_count.
Context {K : Type} `{EqDecision K} (col : Error → K).

Lemma filter_nonempty (rows : list (Z * Error)) k :
  (0 < length (filter (λ kr, col kr.2 = k) rows))%nat
  ↔ k ∈ ((λ kr, col kr.2) <$> rows).
Proof.
  rewrite list_elem_of_fmap. split.
  - destruct (filter _ rows) as [|kr l] eqn:Hf; simpl; [lia|].
    intros _. assert (Hin : kr ∈ filter (λ kr, col kr.2 = k) rows)
      by (rewrite Hf; left).
    apply list_elem_of_filter in Hin as [Hk Hin]. by exists kr.
  - intros (kr & -> & Hin).
    assert (Hf : kr ∈ filter (λ kr', col kr'.2 = col kr.2) rows)
      by by apply list_elem_of_filter.
    destruct (filter _ rows); [by apply elem_of_nil in Hf | simpl; lia].
Qed.

Lemma elem_of_group_count (rows : list (Z * Error)) k n :
  (k, n) ∈ group_count col rows
  ↔ n = length (filter (λ kr, col kr.2 = k) rows) ∧ (0 < n)%nat.
Proof.
  unfold group_count. rewrite list_elem_of_fmap. split.
  - intros (k' & [= -> ->] & Hin). split; [done|].
    apply filter_nonempty. by rewrite elem_of_remove_dups in Hin.
  - intros [-> Hpos]. exists k. split; [done|].
    apply elem_of_remove_dups. by apply filter_nonempty.
Qed.

Lemma group_count_keys (rows : list (Z * Error)) :
  (group_count col rows).*1 = remove_dups ((λ kr, col kr.2) <$> rows).
Proof.
  unfold group_count. generalize (remove_dups ((λ kr, col kr.2) <$> rows)).
  intros l. induction l as [|k l IH]; [done|].
  rewrite !fmap_cons, IH. done.
Qed.

Lemma NoDup_group_count_keys (rows : list (Z * Error)) :
  NoDup (group_count col rows).*1.
Proof. rewrite group_count_keys. apply NoDup_remove_dups. Qed.
End group_count.

Lemma lookup_dict_of {V} (l : list (string * V)) k v :
  NoDup l.*1 → dict_of l !! k = Some v ↔ (k, v) ∈ l.
Proof.
  intros Hnodup. unfold dict_of.
  rewrite <- elem_of_list_to_map.
  - by rewrite elem_of_reverse.
  - by rewrite fmap_reverse, reverse_Permutation.
Qed.

Lemma size_dict_of {V} (l : list (string * V)) :
  NoDup l.*1 → size (dict_of l) = length l.
Proof.
  intros Hnodup. unfold dict_of. rewrite map_size_list_to_map.
  - apply length_reverse.
  - by rewrite fmap_reverse, reverse_Permutation.
Qed.

#[global] Instance by_count_desc_trans {K} : Transitive (@by_count_desc K).
Proof. unfold by_count_desc. intros x y z. lia. Qed.

#[global] Instance by_count_desc_total {K} : Total (@by_count_desc K).
Proof. unfold by_count_desc. intros x y. lia. Qed.

(** The first [n] of a list of counts in descending order. *)
Section top.
Context {K : Type} (n : nat) (l : list (K * nat)).

Let ranked := merge_sort by_count_desc l.

Lemma top_elem_of x : x ∈ take n ranked → x ∈ l.
Proof.
  intros Hin. apply subseteq_take in Hin.
  unfold ranked in Hin. by rewrite merge_sort_Permutation in Hin.
Qed.

Lemma top_length : (length (take n ranked) ≤ n)%nat.
Proof. rewrite length_take. lia. Qed.

Lemma top_NoDup_keys : NoDup l.*1 → NoDup (take n ranked).*1.
Proof.
  intros Hnodup.
  assert (Hranked : NoDup ranked.*1)
    by (unfold ranked; by rewrite merge_sort_Permutation).
  rewrite <- (take_drop n ranked), fmap_app in Hranked.
  by apply NoDup_app in Hranked as [? _].
Qed.

Lemma top_rest y : y ∈ l → y ∉ take n ranked → y ∈ drop n ranked.
Proof.
  intros Hin Hout.
  assert (Hranked : y ∈ ranked)
    by (unfold ranked; by rewrite merge_sort_Permutation).
  rewrite <- (take_drop n ranked) in Hranked.
  apply elem_of_app in Hranked as [?|?]; done.
Qed.

Lemma top_dominates x y :
  x ∈ take n ranked → y ∈ l → y ∉ take n ranked → (y.2 ≤ x.2)%nat.
Proof.
  intros Hx Hy Hout. apply (top_rest y Hy) in Hout.
  assert (Hsorted : StronglySorted by_count_desc ranked)
    by (apply StronglySorted_merge_sort; apply _).
  rewrite <- (take_drop n ranked) in Hsorted.
  by apply (StronglySorted_app_1_elem_of _ _ _ x y Hsorted).
Qed.

Lemma top_full y :
  y ∈ l → y ∉ take n ranked → length (take n ranked) = n.
Proof.
  intros Hy Hout. apply (top_rest y Hy) in Hout.
  apply length_take_le.
  destruct (decide (n ≤ length ranked)%nat) as [|Hshort]; [done|].
  rewrite drop_ge in Hout by lia. by apply elem_of_nil in Hout.
Qed.
End top.

Lemma selects_statistics_query start_date end_date e :
  selects (statistics_query start_date end_date) e = true
  ↔ in_range start_date end_date e.
Proof.
  unfold statistics_query, in_range.
  rewrite !selects_filter_if. simpl.
  setoid_rewrite Z.leb_le. split.
  - intros ((_ & H1) & H2). split; eauto.
  - intros (H1 & H2). split_and!; eauto.
Qed.

Lemma query_all_statistics start_date end_date t :
  query_all (statistics_query start_date end_date) t
  = selected_rows start_date end_date t.
Proof.
  unfold query_all, selected_rows. apply list_filter_iff.
  intros kr. apply selects_statistics_query.
Qed.

Lemma filter_all {A} (P : A → Prop) `{!∀ x, Decision (P x)} (l : list A) :
  (∀ x, P x) → filter P l = l.
Proof.
  intros Hall. induction l as [|x l IH]; [done|].
  rewrite filter_cons, IH. case_decide as Hx; [done | by destruct Hx].
Qed.

Lemma filter_null {A} (l : list A) : filter (λ _, false = true) l = [].
Proof.
  induction l as [|x l IH]; [done|].
  rewrite filter_cons. case_decide; [done | exact IH].
Qed.

(** The rows the aggregates select: those of [query] when it has a
    criterion, and none when it has not. *)
Lemma query_all_filter_clause q t :
  query_all (filter_clause (whereclause q) []) t
  = match q with [] => [] | _ => query_all q t end.
Proof.
  unfold query_all, filter_clause, query_filter, whereclause.
  destruct q as [|c q]; simpl.
  - apply filter_null.
  - apply list_filter_iff. intros kr. unfold selects at 1. simpl.
    by rewrite andb_true_r.
Qed.

Lemma get_error_statistics_run start_date end_date w :
  get_error_statistics start_date end_date w
  = (inr (let rows := aggregated_rows start_date end_date (errors w) in
          {| total_requests :=
               length (selected_rows start_date end_date (errors w));
             status_code_counts :=
               dict_of ((λ cc, (Str.of_Z cc.1, cc.2))
                          <$> group_count status_code rows);
             method_counts := dict_of (group_count method rows);
             top_endpoints :=
               dict_of (take 10 (merge_sort by_count_desc
                                   (group_count endpoint rows)));
             average_response_time_ms :=
               match avg (durations rows) with
               | Some a => if Qeq_bool a 0 then 0%Q else a
               | None => 0%Q
               end |}), w).
Proof.
  unfold get_error_statistics. run_M.
  rewrite query_all_filter_clause, query_all_statistics.
  unfold aggregated_rows. by destruct start_date, end_date.
Qed.

#[global] Instance of_Z_inj : Inj (=) (=) Str.of_Z.
Proof. unfold Str.of_Z. apply _. Qed.

Lemma lookup_status_code_counts (rows : list (Z * Error)) s n :
  dict_of ((λ cc, (Str.of_Z cc.1, cc.2)) <$> group_count status_code rows)
    !! s = Some n
  ↔ ∃ c, s = Str.of_Z c
         ∧ n = count_where (λ e, status_code e = c) rows ∧ (0 < n)%nat.
Proof.
  rewrite lookup_dict_of.
  - rewrite list_elem_of_fmap. split.
    + intros ([c n'] & [= -> ->] & Hin). exists c. split; [done|].
      by apply elem_of_group_count in Hin.
    + intros (c & -> & Hn). exists (c, n). split; [done|].
      by apply elem_of_group_count.
  - assert (Hkeys : ((λ cc : Z * nat, (Str.of_Z cc.1, cc.2))
                       <$> group_count status_code rows).*1
                    = Str.of_Z <$> (group_count status_code rows).*1).
    { rewrite <- list_fmap_compose.
      by rewrite <- (list_fmap_compose fst Str.of_Z). }
    rewrite Hkeys.
    apply NoDup_fmap_2; [apply _|]. apply NoDup_group_count_keys.
Qed.

(** X8.  With a bound given, [get_error_statistics] raises nothing, and over
    the rows whose request time is within the bounds: [total_requests] is their
    number; [status_code_counts] maps the decimal text of each status code
    that occurs to the number of rows with it, and has no other key;
    [method_counts] does the same by method; [top_endpoints] has at most 10
    endpoints, each with its number of rows, no endpoint left out has more
    rows than one that is in, and one is left out only when 10 are in;
    [average_response_time_ms] is 0 when no row has a duration, in
    particular when there is no row. *)
Lemma get_error_statistics_bounded start_date end_date w :
  is_Some start_date ∨ is_Some end_date →
  ∃ stats,
    get_error_statistics start_date end_date w = (inr stats, w)
    ∧ total_requests stats = length (rows_in start_date end_date w)
    ∧ (∀ s n,
         status_code_counts stats !! s = Some n
         ↔ ∃ c, s = Str.of_Z c
                ∧ n = count_where (λ e, status_code e = c)
                        (rows_in start_date end_date w)
                ∧ (0 < n)%nat)
    ∧ (∀ m n,
         method_counts stats !! m = Some n
         ↔ n = count_where (λ e, method e = m) (rows_in start_date end_date w)
           ∧ (0 < n)%nat)
    ∧ (size (top_endpoints stats) ≤ 10)%nat
    ∧ (∀ ep n,
         top_endpoints stats !! ep = Some n →
         n = count_where (λ e, endpoint e = ep) (rows_in start_date end_date w)
         ∧ (0 < n)%nat)
    ∧ (∀ ep ep' n,
         top_endpoints stats !! ep = Some n →
         top_endpoints stats !! ep' = None →
         (count_where (λ e, endpoint e = ep') (rows_in start_date end_date w)
          ≤ n)%nat)
    ∧ (∀ ep',
         top_endpoints stats !! ep' = None →
         (0 < count_where (λ e, endpoint e = ep')
                (rows_in start_date end_date w))%nat →
         size (top_endpoints stats) = 10%nat)
    ∧ (rows_in start_date end_date w = [] →
       average_response_time_ms stats = 0%Q)
    ∧ (durations (rows_in start_date end_date w) = [] →
       average_response_time_ms stats = 0%Q).
Proof.
  intros Hbound.
  eexists. split; [apply get_error_statistics_run|].
  assert (Hrows : aggregated_rows start_date end_date (errors w)
                  = selected_rows start_date end_date (errors w)).
  { unfold aggregated_rows.
    destruct start_date, end_date; try done.
    by destruct Hbound as [[? [=]] | [? [=]]]. }
  rewrite Hrows.
  unfold rows_in. set (rows := selected_rows start_date end_date (errors w)).
  simpl.
  set (counts := group_count endpoint rows).
  assert (Hkeys : NoDup counts.*1) by apply NoDup_group_count_keys.
  assert (Htop : NoDup (take 10 (merge_sort by_count_desc counts)).*1)
    by by apply top_NoDup_keys.
  split_and!.
  - done.
  - apply lookup_status_code_counts.
  - intros m n. rewrite lookup_dict_of by apply NoDup_group_count_keys.
    apply elem_of_group_count.
  - rewrite size_dict_of by done. apply top_length.
  - intros ep n Hin. apply lookup_dict_of in Hin; [|done].
    apply top_elem_of in Hin. by apply elem_of_group_count in Hin.
  - intros ep ep' n Hin Hout.
    destruct (decide (0 < count_where (λ e, endpoint e = ep') rows)%nat)
      as [Hpos|]; [|lia].
    apply lookup_dict_of in Hin; [|done].
    apply (top_dominates 10 counts (ep, n)
             (ep', count_where (λ e, endpoint e = ep') rows)); [done|..].
    + by apply elem_of_group_count.
    + intros Hin'. apply lookup_dict_of in Hin'; [|done]. congruence.
  - intros ep' Hout Hpos. rewrite size_dict_of by done.
    apply (top_full 10 counts
             (ep', count_where (λ e, endpoint e = ep') rows)).
    + by apply elem_of_group_count.
    + intros Hin'. apply lookup_dict_of in Hin'; [|done]. congruence.
  - intros Hrows'. by rewrite Hrows'.
  - intros Hnone. by rewrite Hnone.
Qed.

(** With no bound given, [total_requests] counts every row of the table and
    the aggregates are empty, whatever the table holds. *)
Lemma get_error_statistics_unbounded w :
  get_error_statistics None None w
  = (inr {| total_requests := size (errors w);
            status_code_counts := ∅;
            method_counts := ∅;
            top_endpoints := ∅;
            average_response_time_ms := 0%Q |}, w).
Proof.
  rewrite get_error_statistics_run. simpl. do 3 f_equal.
  unfold selected_rows. rewrite filter_all; [apply length_map_to_list|].
  intros kr. split; by intros d [=].
Qed.

(** C8, at the failing input.  [get_error_statistics()], no bound given,
    on the table of four requests with status codes 200, 400, 200 and 500:
    [total_requests] is 4, and [status_code_counts], [method_counts] and
    [top_endpoints] are empty and [average_response_time_ms] is 0, where
    three of the four rows have a duration (10, 30 and 20). *)
Theorem get_error_statistics_no_range_sample :
  ∃ stats,
    get_error_statistics None None Sample.populated
    = (inr stats, Sample.populated)
    ∧ total_requests stats = 4%nat
    ∧ count_where (λ e, status_code e = 200) (rows_in None None Sample.populated)
      = 2%nat
    ∧ status_code_counts stats !! "200" = None
    ∧ status_code_counts stats = ∅
    ∧ method_counts stats = ∅
    ∧ top_endpoints stats = ∅
    ∧ durations (rows_in None None Sample.populated) ≠ []
    ∧ average_response_time_ms stats = 0%Q.
Proof.
  eexists. split; [apply get_error_statistics_unbounded|].
  by vm_compute.
Qed.

(** The same table with a lower bound that every row meets. *)
Lemma get_error_statistics_sample :
  ∃ stats,
    get_error_statistics (Some 0) None Sample.populated
    = (inr stats, Sample.populated)
    ∧ total_requests stats = 4%nat
    ∧ status_code_counts stats !! "200" = Some 2%nat
    ∧ status_code_counts stats !! "400" = Some 1%nat
    ∧ status_code_counts stats !! "500" = Some 1%nat
    ∧ method_counts stats !! "GET" = Some 2%nat
    ∧ top_endpoints stats !! "/api/test1" = Some 2%nat.
Proof. eexists. split; [reflexivity|]. by vm_compute. Qed.

(** * Further properties *)

(** ** The store *)

(** X1.  A row [log_error] has stored is the one [get_error_by_id] returns
    for the id it was given; before the call that id had no row, and the
    rows of the other ids are as they were. *)
Theorem log_error_get_error_by_id a w k e w' :
  log_error a w = (inr (k, e), w') →
  get_error_by_id k w' = (inr (Some e), w')
  ∧ get_error_by_id k w = (inr None, w)
  ∧ (∀ k', k' ≠ k →
       (get_error_by_id k' w').1 = (get_error_by_id k' w).1).
Proof.
  intros Hrun. apply log_error_inv in Hrun as (_ & _ & _ & _ & -> & -> & ->).
  rewrite !get_error_by_id_run. simpl. split_and!.
  - by rewrite lookup_insert_eq.
  - by rewrite next_id_fresh.
  - intros k' Hk'. simpl. by rewrite lookup_insert_ne.
Qed.

Lemma log_error_get_error_by_id_witness :
  ∃ k e w',
    log_error (Sample.args "post" "/api/links" 201) Sample.populated
    = (inr (k, e), w')
    ∧ k = 5
    ∧ get_error_by_id k w' = (inr (Some e), w')
    ∧ get_error_by_id k Sample.populated = (inr None, Sample.populated).
Proof.
  eexists _, _, _. split; [reflexivity|]. split; [by vm_compute|].
  destruct (log_error_get_error_by_id
              (Sample.args "post" "/api/links" 201) Sample.populated
              _ _ _ eq_refl) as (Hnew & Hold & _).
  split; [exact Hnew | exact Hold].
Defined.

(** X2.  [log_error] only ever adds: every row of the table is in the table
    it leaves, unchanged.  When it returns, the table has exactly one more
    row, under an id that had none; when it raises, the world is as it
    was. *)
Theorem log_error_append_only a w :
  errors w ⊆ errors (log_error a w).2
  ∧ match (log_error a w).1 with
    | inr (k, e) =>
        errors w !! k = None
        ∧ errors (log_error a w).2 = <[k := e]> (errors w)
        ∧ size (errors (log_error a w).2) = S (size (errors w))
    | inl _ => (log_error a w).2 = w
    end.
Proof.
  rewrite log_error_run.
  destruct (negb _ || negb _ || _); [done|].
  destruct (commit_fault w); [done|]. simpl.
  pose proof (next_id_fresh (errors w)) as Hfresh.
  split_and!; try done.
  - by apply insert_subseteq.
  - by apply map_size_insert_None.
Qed.

(** X3.  The id of a new row is above the id of every row of the table; two
    calls in a row store under increasing ids, and the first row is still
    there after the second call. *)
Theorem log_error_ids_increase a1 a2 w k1 e1 w1 k2 e2 w2 :
  log_error a1 w = (inr (k1, e1), w1) →
  log_error a2 w1 = (inr (k2, e2), w2) →
  (∀ k, is_Some (errors w !! k) → k < k1)
  ∧ k1 < k2
  ∧ errors w2 !! k1 = Some e1
  ∧ errors w2 !! k2 = Some e2.
Proof.
  intros H1 H2.
  apply log_error_inv in H1 as (_ & _ & _ & _ & -> & -> & ->).
  apply log_error_inv in H2 as (_ & _ & _ & _ & -> & -> & ->).
  simpl.
  assert (Hlt : next_id (errors w)
                < next_id (<[next_id (errors w) :=
                               logged_row a1 (clock w)]> (errors w))).
  { apply next_id_above. rewrite lookup_insert_eq. by eexists. }
  split_and!.
  - apply next_id_above.
  - done.
  - rewrite lookup_insert_ne by lia. by rewrite lookup_insert_eq.
  - by rewrite lookup_insert_eq.
Qed.

Lemma log_error_ids_increase_witness :
  ∃ k1 e1 w1 k2 e2 w2,
    log_error (Sample.args "GET" "/a" 200) Sample.populated
    = (inr (k1, e1), w1)
    ∧ log_error (Sample.args "GET" "/b" 404) w1 = (inr (k2, e2), w2)
    ∧ k1 < k2
    ∧ errors w2 !! k1 = Some e1.
Proof.
  eexists _, _, _, _, _, _.
  split; [reflexivity|]. split; [reflexivity|].
  destruct (log_error_ids_increase
              (Sample.args "GET" "/a" 200) (Sample.args "GET" "/b" 404)
              Sample.populated _ _ _ _ _ _ eq_refl eq_refl)
    as (_ & Hlt & Hfirst & _).
  split; [exact Hlt | exact Hfirst].
Defined.

(** ** Paging *)











(** X6.  A filter given as an empty text, or a status code filter of 0, is
    no filter: [get_errors] answers as it does without it. *)
Theorem get_errors_ignores_empty_filters page per_page f w :
  get_errors page per_page f w = get_errors page per_page (without_empty f) w.
Proof.
  assert (Hquery : errors_query (without_empty f) = errors_query f).
  { unfold errors_query, without_empty. simpl.
    destruct (f_method f) as [[|??]|], (f_endpoint f) as [[|??]|],
      (f_status_code f) as [[| |]|], (f_error_type f) as [[|??]|]; done. }
  by rewrite !get_errors_run, Hquery.
Qed.



(** ** Statistics *)

Lemma get_error_statistics_bounded_witness :
  ∃ stats,
    get_error_statistics (Some 0) None Sample.populated
    = (inr stats, Sample.populated)
    ∧ total_requests stats = length (rows_in (Some 0) None Sample.populated)
    ∧ (size (top_endpoints stats) ≤ 10)%nat.
Proof.
  destruct (get_error_statistics_bounded (Some 0) None Sample.populated)
    as (stats & Hrun & Htotal & _ & _ & Htop & _).
  { left. by exists 0. }
  exists stats. split; [exact Hrun|]. split; [exact Htotal | exact Htop].
Defined.

Lemma sum_list_fmap_add {A} (f g : A → nat) (l : list A) :
  sum_list ((λ x, f x + g x)%nat <$> l)
  = (sum_list (f <$> l) + sum_list (g <$> l))%nat.
Proof. induction l as [|x l IH]; csimpl; unfold id in *; lia. Qed.

Lemma sum_list_fmap_zero {A} (l : list A) :
  sum_list ((λ _, 0%nat) <$> l) = 0%nat.
Proof. induction l as [|x l IH]; csimpl; unfold id in *; lia. Qed.

Lemma sum_list_indicator_out {A} `{EqDecision A} (l : list A) x :
  x ∉ l →
  sum_list ((λ y, if decide (x = y) then 1 else 0)%nat <$> l) = 0%nat.
Proof.
  induction l as [|z l IH]; [done|].
  rewrite not_elem_of_cons. intros [Hxz Hx]. csimpl.
  rewrite decide_False by done. by rewrite IH.
Qed.

Lemma sum_list_indicator {A} `{EqDecision A} (l : list A) x :
  NoDup l → x ∈ l →
  sum_list ((λ y, if decide (x = y) then 1 else 0)%nat <$> l) = 1%nat.
Proof.
  induction 1 as [|y l Hy Hl IH]; [by intros ?%elem_of_nil|].
  intros Hin. csimpl. destruct (decide (x = y)) as [->|Hne].
  - by rewrite sum_list_indicator_out.
  - apply elem_of_cons in Hin as [?|Hin]; [done|]. by rewrite IH.
Qed.

(** The counts of a grouping add up to the number of rows. *)
Lemma sum_group_count {K} `{EqDecision K} (col : Error → K)
    (rows : list (Z * Error)) :
  sum_list (group_count col rows).*2 = length rows.
Proof.
  unfold group_count. rewrite <- list_fmap_compose.
  assert (Hgen : ∀ ks, NoDup ks →
            (∀ kr, kr ∈ rows → col kr.2 ∈ ks) →
            sum_list ((λ k, length (filter (λ kr, col kr.2 = k) rows)) <$> ks)
            = length rows).
  { intros ks Hks. induction rows as [|r rows IH]; intros Hcover.
    - apply sum_list_fmap_zero.
    - rewrite (list_fmap_ext _
                 (λ k, (if decide (col r.2 = k) then 1 else 0)
                       + length (filter (λ kr, col kr.2 = k) rows))%nat ks).
      + rewrite sum_list_fmap_add, sum_list_indicator, IH; [done| |done|].
        * intros kr Hkr. apply Hcover. by right.
        * apply Hcover. by left.
      + intros _ k _. rewrite filter_cons. by case_decide. }
  apply Hgen; [apply NoDup_remove_dups|].
  intros kr Hkr. apply elem_of_remove_dups, list_elem_of_fmap. by exists kr.
Qed.

Lemma sum_counts_dict_of (l : list (string * nat)) :
  NoDup l.*1 → sum_counts (dict_of l) = sum_list l.*2.
Proof.
  intros Hnodup. unfold sum_counts, dict_of.
  rewrite map_to_list_to_map by by rewrite fmap_reverse, reverse_Permutation.
  by rewrite reverse_Permutation.
Qed.

Lemma sum_list_take (l : list nat) n : (sum_list (take n l) ≤ sum_list l)%nat.
Proof.
  revert n. induction l as [|x l IH]; intros [|n]; csimpl; try lia.
  specialize (IH n). unfold id in *. lia.
Qed.

Lemma NoDup_status_code_keys (rows : list (Z * Error)) :
  NoDup ((λ cc : Z * nat, (Str.of_Z cc.1, cc.2))
           <$> group_count status_code rows).*1.
Proof.
  assert (Hkeys : ((λ cc : Z * nat, (Str.of_Z cc.1, cc.2))
                     <$> group_count status_code rows).*1
                  = Str.of_Z <$> (group_count status_code rows).*1).
  { rewrite <- list_fmap_compose.
    by rewrite <- (list_fmap_compose fst Str.of_Z). }
  rewrite Hkeys.
  apply NoDup_fmap_2; [apply _|]. apply NoDup_group_count_keys.
Qed.

(** X9.  With a bound given, the counts by status code add up to
    [total_requests], and so do the counts by method; the counts of
    [top_endpoints] add up to at most that. *)
Theorem get_error_statistics_counts_add_up start_date end_date w :
  is_Some start_date ∨ is_Some end_date →
  ∃ stats,
    get_error_statistics start_date end_date w = (inr stats, w)
    ∧ sum_counts (status_code_counts stats) = total_requests stats
    ∧ sum_counts (method_counts stats) = total_requests stats
    ∧ (sum_counts (top_endpoints stats) ≤ total_requests stats)%nat.
Proof.
  intros Hbound.
  eexists. split; [apply get_error_statistics_run|].
  assert (Hrows : aggregated_rows start_date end_date (errors w)
                  = selected_rows start_date end_date (errors w)).
  { unfold aggregated_rows.
    destruct start_date, end_date; try done.
    by destruct Hbound as [[? [=]] | [? [=]]]. }
  rewrite Hrows. simpl.
  set (rows := selected_rows start_date end_date (errors w)).
  split_and!.
  - rewrite sum_counts_dict_of by apply NoDup_status_code_keys.
    rewrite <- list_fmap_compose.
    by rewrite <- (sum_group_count status_code rows).
  - rewrite sum_counts_dict_of by apply NoDup_group_count_keys.
    apply sum_group_count.
  - rewrite sum_counts_dict_of
      by by apply top_NoDup_keys, NoDup_group_count_keys.
    rewrite fmap_take. etrans; [apply sum_list_take|].
    rewrite merge_sort_Permutation.
    by rewrite (sum_group_count endpoint rows).
Qed.

Lemma get_error_statistics_counts_add_up_witness :
  ∃ stats,
    get_error_statistics None (Some (clock Sample.world)) Sample.populated
    = (inr stats, Sample.populated)
    ∧ sum_counts (status_code_counts stats) = total_requests stats
    ∧ sum_counts (method_counts stats) = total_requests stats
    ∧ (sum_counts (top_endpoints stats) ≤ total_requests stats)%nat.
Proof.
  apply (get_error_statistics_counts_add_up
           None (Some (clock Sample.world)) Sample.populated).
  right. by eexists.
Defined.

(** ** Retention *)

(** X10.  Cleaning up twice is cleaning up once: on a backend that takes
    the commits, when the instant [days] days before the clock is one a
    [datetime] can hold, a second [delete_old_errors] with the same number
    of days, the clock not having moved, deletes nothing and leaves the
    world as the first left it. *)
Theorem delete_old_errors_twice days w :
  commit_fault w = None → cutoff_in_range (clock w) days →
  ∃ n w',
    delete_old_errors days w = (inr n, w')
    ∧ delete_old_errors days w' = (inr 0%nat, w').
Proof.
  intros Hfault Hcutoff. eexists _, _.
  split; [by rewrite delete_old_errors_run, Hfault|].
  rewrite delete_old_errors_run by done. simpl. rewrite Hfault.
  set (cutoff := days_before (clock w) days).
  f_equal.
  - f_equal. apply map_size_empty_iff, map_empty. intros k.
    apply map_lookup_filter_None. right. intros e He.
    by apply map_lookup_filter_Some in He as [_ He].
  - unfold with_errors. simpl. f_equal.
    apply map_filter_id. intros k e He.
    by apply map_lookup_filter_Some in He as [_ He].
Qed.

Lemma delete_old_errors_twice_witness :
  ∃ n w',
    delete_old_errors 30 Sample.populated = (inr n, w')
    ∧ delete_old_errors 30 w' = (inr 0%nat, w').
Proof.
  apply (delete_old_errors_twice 30 Sample.populated);
    [reflexivity | apply sample_cutoff_in_range].
Defined.

(** X11.  Keeping more days deletes less: on a backend that takes the
    commit, with [days1 <= days2] and both instants ones a [datetime] can
    hold, cleaning up with [days2] deletes no more rows than with [days1],
    every row [days1] keeps is kept by [days2], and what either keeps is
    part of the table. *)
Theorem delete_old_errors_monotone days1 days2 w :
  days1 ≤ days2 → commit_fault w = None →
  cutoff_in_range (clock w) days1 → cutoff_in_range (clock w) days2 →
  ∃ n1 w1 n2 w2,
    delete_old_errors days1 w = (inr n1, w1)
    ∧ delete_old_errors days2 w = (inr n2, w2)
    ∧ (n2 ≤ n1)%nat
    ∧ errors w1 ⊆ errors w2
    ∧ errors w2 ⊆ errors w.
Proof.
  intros Hdays Hfault Hcutoff1 Hcutoff2. eexists _, _, _, _.
  rewrite !delete_old_errors_run, Hfault by done.
  split; [done|]. split; [done|]. simpl.
  assert (days_before (clock w) days2 ≤ days_before (clock w) days1)
    by (unfold days_before; lia).
  split_and!.
  - apply map_subseteq_size, map_filter_subseteq_ext.
    intros k e _. simpl. lia.
  - apply map_filter_subseteq_ext. intros k e _. simpl. lia.
  - apply map_filter_subseteq.
Qed.

Lemma delete_old_errors_monotone_witness :
  ∃ n1 w1 n2 w2,
    delete_old_errors 2 Sample.populated = (inr n1, w1)
    ∧ delete_old_errors 30 Sample.populated = (inr n2, w2)
    ∧ (n2 ≤ n1)%nat
    ∧ errors w1 ⊆ errors w2
    ∧ errors w2 ⊆ errors Sample.populated.
Proof.
  apply (delete_old_errors_monotone 2 30 Sample.populated);
    [lia | reflexivity | | apply sample_cutoff_in_range].
  unfold cutoff_in_range, days_before. by vm_compute.
Defined.

(** X12.  A row just logged outlives a cleanup: after [log_error] has
    stored a row whose request time it took from the clock, a cleanup that
    keeps 0 days or more, the clock not having moved and the instant that
    many days before it being one a [datetime] can hold, leaves the row for
    [get_error_by_id] to return. *)
Theorem logged_row_survives_cleanup a w k e w' days :
  log_error a w = (inr (k, e), w') →
  arg_request_time a = None →
  0 ≤ days → cutoff_in_range (clock w) days →
  ∃ n w'',
    delete_old_errors days w' = (inr n, w'')
    ∧ get_error_by_id k w'' = (inr (Some e), w'').
Proof.
  intros Hrun Htime Hdays Hcutoff.
  apply log_error_inv in Hrun as (_ & _ & _ & Hfault & -> & -> & ->).
  eexists _, _. rewrite delete_old_errors_run by done. simpl. rewrite Hfault.
  split; [done|]. rewrite get_error_by_id_run. simpl. do 2 f_equal.
  apply map_lookup_filter_Some. split; [by rewrite lookup_insert_eq|].
  simpl. rewrite Htime. simpl. unfold days_before. lia.
Qed.

Lemma logged_row_survives_cleanup_witness :
  ∃ n w'',
    delete_old_errors 0
      (log_error (Sample.args "GET" "/api/links" 200) Sample.populated).2
    = (inr n, w'')
    ∧ get_error_by_id 5 w''
      = (inr (Some (logged_row (Sample.args "GET" "/api/links" 200)
                      (clock Sample.populated))), w'').
Proof.
  apply (logged_row_survives_cleanup
           (Sample.args "GET" "/api/links" 200) Sample.populated 5 _ _ 0);
    [reflexivity | reflexivity | lia |].
  unfold cutoff_in_range, days_before. by vm_compute.
Defined.

(** X13.  The cleanup route never raises and its status tells what
    happened: 400, and nothing changed, when the number of days (30 when
    none is given) is below 1; otherwise 500, and nothing changed, when no
    [datetime] can hold the instant that many days before the clock, with
    the message of the service when a [timedelta] can hold the days;
    otherwise 500 with the message of the service, and nothing changed,
    when the backend fails the commit; and otherwise 200. *)
Theorem cleanup_old_errors_status days_arg w :
  ∃ r w',
    cleanup_old_errors days_arg w = (inr r, w')
    ∧ (default 30 days_arg < 1 → rr_status r = 400 ∧ w' = w)
    ∧ (1 ≤ default 30 days_arg →
       if decide (cutoff_in_range (clock w) (default 30 days_arg)) then
         match commit_fault w with
         | Some msg =>
             r = error_response 500
                   ("Failed to delete old error logs: " +:+ msg)
             ∧ w' = w
         | None => rr_status r = 200
         end
       else
         rr_status r = 500 ∧ w' = w
         ∧ (default 30 days_arg ≤ 999999999 →
            r = error_response 500
                  "Failed to delete old error logs: date value out of range")).
Proof.
  destruct (decide (default 30 days_arg < 1)) as [Hlow|Hdays].
  - unfold cleanup_old_errors, mbind, M_bind, bind, try_except.
    rewrite (proj2 (Z.ltb_lt _ _) Hlow).
    eexists _, _. split; [done|]. split; [done | lia].
  - assert (cleanup_old_errors days_arg w
            = cleanup_old_errors (Some (default 30 days_arg)) w) as ->
      by by destruct days_arg.
    rewrite cleanup_old_errors_run by lia. case_decide as Hcutoff.
    + rewrite delete_old_errors_run by done.
      destruct (commit_fault w) as [msg|]; eexists _, _;
        (split; [done|]); (split; [lia | done]).
    + destruct (delete_old_errors_overflow _ w Hcutoff) as (msg & -> & Hmsg).
      eexists _, _. split; [done|]. split; [lia|]. intros _.
      split_and!; [done..|]. intros Hfits. rewrite Hmsg; [done|lia].
Qed.

Lemma cleanup_old_errors_status_witness :
  cleanup_old_errors (Some 800000) Sample.populated
  = (inr (error_response 500
            "Failed to delete old error logs: date value out of range"),
     Sample.populated).
Proof.
  destruct (cleanup_old_errors_status (Some 800000) Sample.populated)
    as (r & w' & Hrun & _ & Hstatus).
  specialize (Hstatus ltac:(simpl; lia)).
  rewrite decide_False in Hstatus
    by (intros (_ & Hlow & _); vm_compute in Hlow; by apply Hlow).
  destruct Hstatus as (_ & -> & Hr).
  rewrite Hrun, Hr; [done | simpl; lia].
Defined.

(** ** The interceptor *)

(** How [after_request] ends: without a new row, or with the row built from
    what it read, and then without a word on standard output. *)
Lemma after_request_outcome rq response w :
  ∃ w',
    after_request rq response w = (inr response, w')
    ∧ (errors w' = errors w
       ∨ ∃ request_data start start_datetime,
           g_request_start_time w = Some start
           ∧ g_request_start_datetime w = Some start_datetime
           ∧ after_request_body rq = Some request_data
           ∧ w' = with_errors
                    (<[next_id (errors w) :=
                         logged_row
                           (after_request_kwargs rq response request_data
                              start start_datetime (clock w))
                           (clock w)]> (errors w)) w).
Proof.
  unfold after_request, _log_request_async, request_get_json.
  unfold resolved_endpoint, after_request_body.
  run_M.
  destruct (g_request_start_time w) as [start|]; [|by eexists; split; [|left]].
  destruct (_should_skip_logging _) eqn:Hskip; [by eexists; split; [|left]|].
  destruct (error_details response) as [[rd em] et] eqn:Hdetails.
  destruct (bool_decide _ && rq_is_json rq); [destruct (rq_json rq)|]; run_M;
    try (by eexists; split; [|left]);
    (destruct (g_request_start_datetime w) as [start_datetime|];
     [|by eexists; split; [|left]]);
    rewrite log_error_run; simpl;
    (destruct (negb _ || negb _ || _); [by eexists; split; [|left]|]);
    (destruct (commit_fault w) eqn:Hfault; simpl;
     [by eexists; split; [|left]|]);
    (eexists; split; [done|]; right; eexists _, start, start_datetime;
     split_and!;
     first [done | unfold after_request_kwargs, logged_row, resolved_endpoint;
                   by rewrite Hdetails]).
Qed.

(** The row behind a record that [after_request] adds. *)
Lemma after_request_logs_row rq response w e :
  after_request_logs rq response w e →
  ∃ request_data start start_datetime,
    g_request_start_time w = Some start
    ∧ g_request_start_datetime w = Some start_datetime
    ∧ after_request_body rq = Some request_data
    ∧ e = logged_row
            (after_request_kwargs rq response request_data
               start start_datetime (clock w))
            (clock w).
Proof.
  intros [k Hk]. unfold new_records in Hk.
  apply map_lookup_filter_Some in Hk as [Hk Hfree]. simpl in Hfree.
  destruct (after_request_outcome rq response w)
    as (w' & Hrun & [Hsame | (rd & st & dt & Hst & Hdt & Hrd & ->)]);
    rewrite Hrun in Hk; simpl in Hk.
  - rewrite Hsame in Hk. congruence.
  - apply lookup_insert_Some in Hk as [[_ <-] | [_ Hk]]; [|congruence].
    by exists rd, st, dt.
Qed.

Lemma header_sanitized (h : gmap string string) name :
  header (sanitized_headers (dict_or_none h)) name
  = if decide (is_sensitive name) then None else h !! name.
Proof.
  apply option_eq. intros value. rewrite sanitized_headers_entry.
  unfold dict_or_none. case_decide as Hh; simpl.
  - subst h. rewrite lookup_empty. case_decide; split; (done || by intros [? ?]).
  - case_decide; split; try done; by intros [? ?].
Qed.

(** X14.  No record the interceptor produces carries a sensitive header:
    the headers of the record have no entry under a name that is
    [authorization], [cookie] or [x-api-key] up to case, and under every
    other name they have what the request had. *)
Theorem after_request_hides_sensitive_headers rq response w e :
  after_request_logs rq response w e →
  (∀ name, is_sensitive name → header (request_headers e) name = None)
  ∧ (∀ name, ¬ is_sensitive name →
       header (request_headers e) name = rq_headers rq !! name).
Proof.
  intros Hlogs.
  apply after_request_logs_row in Hlogs as (rd & st & dt & _ & _ & _ & ->).
  simpl. split; intros name Hname; rewrite header_sanitized;
    by case_decide.
Qed.

Lemma after_request_logs_intro rq response w start start_datetime request_data :
  g_request_start_time w = Some start →
  g_request_start_datetime w = Some start_datetime →
  _should_skip_logging (resolved_endpoint rq) = false →
  after_request_body rq = Some request_data →
  rq_method rq ≠ "" → resolved_endpoint rq ≠ "" →
  resp_status_code response ≠ 0 →
  commit_fault w = None →
  after_request_logs rq response w
    (logged_row
       (after_request_kwargs rq response request_data
          start start_datetime (clock w))
       (clock w)).
Proof.
  intros Hst Hdt Hskip Hbody Hm He Hs Hfault.
  destruct (after_request_healthy rq response w start start_datetime
              request_data) as (w' & Hrun & Htable); try done.
  exists (next_id (errors w)). rewrite Hrun. simpl.
  unfold new_records. rewrite Htable.
  apply map_lookup_filter_Some. split; [apply lookup_insert_eq|].
  apply next_id_fresh.
Qed.

Lemma sample_post_logs :
  after_request_logs Cases.post_request Cases.created Sample.world
    (Cases.logged Cases.post_request Cases.created
       (JDict {[ "title" := JStr "Rocq" ]})).
Proof. by apply after_request_logs_intro. Qed.

Lemma after_request_hides_sensitive_headers_witness :
  header (request_headers
            (Cases.logged Cases.post_request Cases.created
               (JDict {[ "title" := JStr "Rocq" ]}))) "Cookie" = None
  ∧ header (request_headers
              (Cases.logged Cases.post_request Cases.created
                 (JDict {[ "title" := JStr "Rocq" ]}))) "Content-Type"
    = Some "application/json".
Proof.
  destruct (after_request_hides_sensitive_headers
              Cases.post_request Cases.created Sample.world _
              sample_post_logs) as [Hhidden Hkept].
  split.
  - apply Hhidden. right. left. reflexivity.
  - rewrite Hkept; [reflexivity|].
    unfold is_sensitive, same_header_name. vm_compute.
    intros [H | [H | H]]; discriminate H.
Defined.

(** X15.  The interceptor records the body of a request only for the
    methods POST, PUT and PATCH, and only when the request declares JSON:
    then [request_data] of the record is the decoded body; for every other
    request it is null, whatever body the request has. *)
Theorem after_request_request_data rq response w e :
  after_request_logs rq response w e →
  (rq_method rq ∈ ["POST"; "PUT"; "PATCH"] → rq_is_json rq = true →
   rq_json rq = Some (request_data e))
  ∧ (rq_method rq ∉ ["POST"; "PUT"; "PATCH"] ∨ rq_is_json rq = false →
     request_data e = JNull).
Proof.
  intros Hlogs.
  apply after_request_logs_row in Hlogs as (rd & st & dt & _ & _ & Hbody & ->).
  simpl. unfold after_request_body in Hbody. split.
  - intros Hm Hjson. by rewrite bool_decide_eq_true_2, Hjson in Hbody.
  - intros [Hm | Hjson].
    + rewrite bool_decide_eq_false_2 in Hbody by done. by injection Hbody.
    + rewrite Hjson, andb_false_r in Hbody. by injection Hbody.
Qed.

Lemma sample_get_with_body_logs :
  after_request_logs Cases.get_with_body Sample.ok_response Sample.world
    (Cases.logged Cases.get_with_body Sample.ok_response JNull).
Proof. by apply after_request_logs_intro. Qed.

Lemma after_request_request_data_witness :
  request_data (Cases.logged Cases.get_with_body Sample.ok_response JNull)
  = JNull
  ∧ rq_json Cases.post_request
    = Some (request_data
              (Cases.logged Cases.post_request Cases.created
                 (JDict {[ "title" := JStr "Rocq" ]}))).
Proof.
  split.
  - destruct (after_request_request_data
                Cases.get_with_body Sample.ok_response Sample.world _
                sample_get_with_body_logs) as [_ Hnull].
    apply Hnull. left. apply (proj1 (bool_decide_eq_false _)). by vm_compute.
  - destruct (after_request_request_data
                Cases.post_request Cases.created Sample.world _
                sample_post_logs) as [Hbody _].
    apply Hbody; [by left | reflexivity].
Defined.

(** X16.  When the interceptor cannot read what it needs, the request
    leaves no record: if [before_request] has not recorded the start of the
    request, or if the endpoint is not skipped and the body of a POST, PUT
    or PATCH request that declares JSON cannot be decoded, [after_request]
    returns the response and the world is as before but for one line on
    standard output. *)
Theorem after_request_unreadable rq response w :
  g_request_start_time w = None
  ∨ (_should_skip_logging (resolved_endpoint rq) = false
     ∧ after_request_body rq = None) →
  ∃ line,
    after_request rq response w
    = (inr response, with_stdout (stdout w ++ [line]) w).
Proof.
  intros Hcause.
  unfold after_request, _log_request_async, request_get_json.
  unfold resolved_endpoint, after_request_body in *.
  run_M.
  destruct (g_request_start_time w) as [start|]; [|by eexists].
  destruct Hcause as [? | [Hskip Hbody]]; [done|].
  rewrite Hskip.
  destruct (error_details response) as [[rd em] et].
  destruct (bool_decide _ && rq_is_json rq); [|done].
  rewrite Hbody. run_M. by eexists.
Qed.

Lemma after_request_unreadable_witness :
  ∃ line,
    after_request Cases.malformed_post Cases.created Sample.world
    = (inr Cases.created,
       with_stdout (stdout Sample.world ++ [line]) Sample.world).
Proof.
  apply (after_request_unreadable Cases.malformed_post Cases.created
           Sample.world).
  right. split; reflexivity.
Defined.

(** X17.  For a skip-listed endpoint [after_request] does nothing at all:
    once [before_request] has recorded the start of the request, it returns
    the response and the world is exactly as before, with no row and no
    line on standard output. *)
Theorem after_request_skip_is_silent rq response w :
  is_Some (g_request_start_time w) →
  skip_listed (resolved_endpoint rq) →
  after_request rq response w = (inr response, w).
Proof.
  intros [start Hstart] Hskip. apply should_skip_spec in Hskip.
  unfold after_request, resolved_endpoint in *. run_M.
  by rewrite Hstart, Hskip.
Qed.

Lemma after_request_skip_is_silent_witness :
  after_request Sample.health_request Sample.ok_response Sample.world
  = (inr Sample.ok_response, Sample.world).
Proof.
  apply (after_request_skip_is_silent Sample.health_request
           Sample.ok_response Sample.world).
  - by eexists.
  - apply should_skip_spec. reflexivity.
Defined.

(** X18.  When the backend fails the commit of a record that was built
    without fault, [after_request] returns the response and the world is as
    before but for the line ["Failed to log request: Failed to log error: "]
    followed by the message of the backend. *)
Theorem after_request_reports_storage_failure rq response w msg request_data :
  commit_fault w = Some msg →
  is_Some (g_request_start_time w) →
  is_Some (g_request_start_datetime w) →
  _should_skip_logging (resolved_endpoint rq) = false →
  after_request_body rq = Some request_data →
  rq_method rq ≠ "" → resolved_endpoint rq ≠ "" →
  resp_status_code response ≠ 0 →
  after_request rq response w
  = (inr response,
     with_stdout
       (stdout w ++ ["Failed to log request: Failed to log error: " +:+ msg])
       w).
Proof.
  intros Hfault [start Hstart] [dt Hdt] Hskip Hbody Hm He Hs.
  assert (Hreq : ∀ a, arg_method a = rq_method rq →
            arg_endpoint a = resolved_endpoint rq →
            arg_status_code a = resp_status_code response →
            log_error a w
            = (inl (DatabaseError ("Failed to log error: " +:+ msg)), w)).
  { intros a Ha1 Ha2 Ha3. rewrite log_error_run, Hfault.
    assert (Hok : negb (Str.truthy (arg_method a))
                  || negb (Str.truthy (arg_endpoint a))
                  || (arg_status_code a =? 0) = false).
    { apply required_present. by rewrite Ha1, Ha2, Ha3. }
    by rewrite Hok. }
  unfold after_request, _log_request_async, request_get_json.
  unfold after_request_body in *.
  run_M. rewrite Hstart. fold (resolved_endpoint rq). rewrite Hskip.
  destruct (error_details response) as [[rd em] et].
  destruct (bool_decide _ && rq_is_json rq);
    [rewrite Hbody|]; run_M; rewrite Hdt, Hreq; done.
Qed.

Lemma after_request_reports_storage_failure_witness :
  after_request Cases.post_request Cases.created Sample.failing_world
  = (inr Cases.created,
     with_stdout
       (stdout Sample.failing_world
        ++ ["Failed to log request: Failed to log error: database is locked"])
       Sample.failing_world).
Proof.
  apply (after_request_reports_storage_failure
           Cases.post_request Cases.created Sample.failing_world
           "database is locked" (JDict {[ "title" := JStr "Rocq" ]}));
    try done; by eexists.
Defined.



(** X20.  [teardown_appcontext] never raises.  Given no exception it leaves
    the world as it was; given one, it leaves every row of the table in
    place and adds at most one. *)
Theorem teardown_appcontext_never_raises rq exception w :
  ∃ w',
    teardown_appcontext rq exception w = (inr tt, w')
    ∧ (exception = None → w' = w)
    ∧ errors w ⊆ errors w'
    ∧ (size (errors w') ≤ S (size (errors w)))%nat.
Proof.
  destruct (teardown_cases rq exception w) as (w' & Hrun & _ & Htable).
  exists w'. split; [done|]. split.
  { intros ->. rewrite teardown_none in Hrun. by injection Hrun. }
  destruct Htable as [-> | (? & ? & ? & ? & _ & _ & ->)];
    [split; [done | lia]|].
  pose proof (next_id_fresh (errors w)).
  split; [by apply insert_subseteq|].
  by rewrite map_size_insert_None.
Qed.

(** X21.  What [teardown_appcontext] records of an unhandled exception:
    when nothing raises on the way, it stores one row, under an id that was
    free, with status code 500, the text of the exception as error message,
    the name of its class as error type and no response data.  The body of
    the request is recorded for every method, and the skip list is not
    consulted. *)
Theorem teardown_appcontext_records_exception
    rq exc w start start_datetime body :
  g_request_start_time w = Some start →
  g_request_start_datetime w = Some start_datetime →
  teardown_body rq = Some body →
  rq_method rq ≠ "" → resolved_endpoint rq ≠ "" →
  commit_fault w = None →
  ∃ k e w',
    teardown_appcontext rq (Some exc) w = (inr tt, w')
    ∧ errors w !! k = None
    ∧ errors w' = <[k := e]> (errors w)
    ∧ status_code e = 500
    ∧ error_message e = JStr (exn_str exc)
    ∧ error_type e = Some (exn_name exc)
    ∧ response_data e = JNull
    ∧ method e = Str.upper (rq_method rq)
    ∧ endpoint e = resolved_endpoint rq
    ∧ request_data e = body
    ∧ request_time e = start_datetime.
Proof.
  intros Hst Hdt Hbody Hm He Hfault.
  destruct (teardown_healthy rq exc w start start_datetime body)
    as (w' & Hrun & Htable); try done.
  eexists _, _, w'. split; [done|]. split; [apply next_id_fresh|].
  split; [done|]. by split_and!.
Qed.

Lemma teardown_appcontext_records_exception_witness :
  ∃ k e w',
    teardown_appcontext Sample.health_request
      (Some (Raised "RuntimeError" "boom")) Sample.world = (inr tt, w')
    ∧ skip_listed (resolved_endpoint Sample.health_request)
    ∧ errors w' !! k = Some e
    ∧ status_code e = 500
    ∧ error_message e = JStr "boom"
    ∧ error_type e = Some "RuntimeError".
Proof.
  destruct (teardown_appcontext_records_exception
              Sample.health_request (Raised "RuntimeError" "boom")
              Sample.world 1699999999990000 1699999999990000 JNull)
    as (k & e & w' & Hrun & _ & Htable & Hs & Hmsg & Hty & _); try done.
  exists k, e, w'. split; [exact Hrun|].
  split; [apply should_skip_spec; reflexivity|].
  split; [rewrite Htable; apply lookup_insert_eq|].
  split; [exact Hs|]. split; [exact Hmsg | exact Hty].
Defined.

(** ** The error responses of the application, as the interceptor records
    them *)

Lemma error_details_message (response : Response) d :
  400 ≤ resp_status_code response →
  resp_is_json response = true →
  resp_json response = Some (JDict d) →
  error_details response
  = (JDict d, default (JStr "Unknown error") (d !! "message"),
     Some "HTTPError").
Proof.
  intros Hcode Hjson Hbody. unfold error_details, response_get_json.
  rewrite (proj2 (Z.leb_le _ _) Hcode), Hjson, Hbody. done.
Qed.

(** X22.  A response of one of the error handlers of the application
    (400, 404, 405, 500 and the handler of unhandled exceptions) is
    recorded by the interceptor with the status code of the handler, its
    JSON body as response data, the [message] of that body as error message
    and the error type [HTTPError]. *)
Theorem app_error_handlers_recorded rq response w e :
  response ∈ app_error_responses →
  after_request_logs rq response w e →
  status_code e = resp_status_code response
  ∧ 400 ≤ status_code e
  ∧ Some (response_data e) = resp_json response
  ∧ Some (error_message e) = body_message response
  ∧ error_type e = Some "HTTPError".
Proof.
  intros Hin Hlogs.
  apply after_request_logs_row in Hlogs as (rd & st & dt & _ & _ & _ & ->).
  unfold app_error_responses in Hin.
  repeat (apply elem_of_cons in Hin as [-> | Hin]);
    [..|by apply elem_of_nil in Hin];
    (simpl; split_and!; first [done | lia | by vm_compute]).
Qed.

Lemma sample_not_found_logs :
  after_request_logs Sample.request not_found Sample.world
    (Sample.logged not_found).
Proof.
  unfold Sample.logged.
  apply (after_request_logs_intro Sample.request not_found Sample.world
           1699999999990000 1699999999990000 JNull);
    first [reflexivity | discriminate].
Qed.

Lemma app_error_handlers_recorded_witness :
  status_code (Sample.logged not_found) = 404
  ∧ error_message (Sample.logged not_found)
    = JStr "The requested resource was not found."
  ∧ error_type (Sample.logged not_found) = Some "HTTPError".
Proof.
  destruct (app_error_handlers_recorded Sample.request not_found
              Sample.world (Sample.logged not_found))
    as (Hcode & _ & _ & Hmsg & Hty).
  - right. left.
  - exact sample_not_found_logs.
  - split; [exact Hcode|]. split; [|exact Hty].
    apply (inj Some). exact Hmsg.
Defined.

(** X23.  An answer a route builds with [error_response], for a status
    code of at least 400, is recorded by the interceptor with that status
    code, the message given to [error_response] as error message, the error
    type [HTTPError] and the whole body as response data. *)
Theorem error_response_recorded rq code message w e :
  400 ≤ code →
  after_request_logs rq (make_response (error_response code message)) w e →
  status_code e = code
  ∧ error_message e = JStr message
  ∧ error_type e = Some "HTTPError"
  ∧ response_data e = JDict (rr_body (error_response code message)).
Proof.
  intros Hcode Hlogs.
  apply after_request_logs_row in Hlogs as (rd & st & dt & _ & _ & _ & ->).
  simpl. by erewrite error_details_message by (done || reflexivity).
Qed.

Lemma sample_error_response_logs :
  after_request_logs Sample.request
    (make_response (error_response 400 "Days must be at least 1"))
    Sample.world
    (Sample.logged
       (make_response (error_response 400 "Days must be at least 1"))).
Proof.
  unfold Sample.logged.
  apply (after_request_logs_intro Sample.request
           (make_response (error_response 400 "Days must be at least 1"))
           Sample.world 1699999999990000 1699999999990000 JNull);
    first [reflexivity | discriminate].
Qed.

Lemma error_response_recorded_witness :
  status_code
    (Sample.logged
       (make_response (error_response 400 "Days must be at least 1"))) = 400
  ∧ error_message
      (Sample.logged
         (make_response (error_response 400 "Days must be at least 1")))
    = JStr "Days must be at least 1".
Proof.
  destruct (error_response_recorded Sample.request 400
              "Days must be at least 1" Sample.world _
              ltac:(lia) sample_error_response_logs)
    as (Hcode & Hmsg & _).
  split; [exact Hcode | exact Hmsg].
Defined.

(** ** The read routes *)

Lemma mbind_run {A B} (m : M A) (k : A → M B) w :
  (m ≫= k) w
  = match m w with
    | (inl e, w') => (inl e, w')
    | (inr a, w') => k a w'
    end.
Proof. done. Qed.

Lemma mapM_lift_result_world {A B} (f : A → exn + B) (l : list A) w :
  (mapM (M:=M) (λ x, lift_result (f x)) l w).2 = w.
Proof.
  induction l as [|x l IH]; [done|].
  simpl. rewrite mbind_run. unfold lift_result at 1.
  destruct (f x) as [err|y]; [done|]. rewrite mbind_run.
  destruct (mapM (M:=M) _ l w) as [[err|ys] w'] eqn:Hl; simpl in IH; by subst.
Qed.


Lemma filter_schema_valid_bounds q :
  filter_schema_valid q = true →
  1 ≤ default 1 (q_page q) ∧ 1 ≤ default 50 (q_per_page q) ≤ 100.
Proof.
  unfold filter_schema_valid. intros Hvalid.
  repeat (apply andb_true_iff in Hvalid as [Hvalid ?]).
  destruct (q_page q), (q_per_page q); simpl in *; lia.
Qed.

Lemma refused_invalid q : refused q ↔ filter_schema_valid q = false.
Proof.
  unfold refused, filter_schema_valid. split.
  - intros [(m & -> & Hm) | [(c & -> & Hc) | [(p & -> & Hp) | (n & -> & Hn)]]];
      simpl.
    + by rewrite bool_decide_eq_false_2.
    + replace ((100 <=? c) && (c <=? 599)) with false by lia.
      by rewrite andb_false_r.
    + replace (1 <=? p) with false by lia. by rewrite andb_false_r.
    + replace ((1 <=? n) && (n <=? 100)) with false by lia.
      by rewrite andb_false_r.
  - intros Hinvalid.
    apply andb_false_iff in Hinvalid as [Hinvalid | Hn].
    apply andb_false_iff in Hinvalid as [Hinvalid | Hp].
    apply andb_false_iff in Hinvalid as [Hm | Hc].
    + destruct (q_method q) as [m|]; [|done]. simpl in Hm.
      left. exists m. split; [done|]. by apply bool_decide_eq_false in Hm.
    + destruct (q_status_code q) as [c|]; [|done]. simpl in Hc.
      right; left. exists c. split; [done|]. lia.
    + destruct (q_page q) as [p|]; [|done]. simpl in Hp.
      right; right; left. exists p. split; [done|]. lia.
    + destruct (q_per_page q) as [n|]; [|done]. simpl in Hn.
      right; right; right. exists n. split; [done|]. lia.
Qed.

Lemma route_failure_run e w :
  ∃ r, route_failure e w = (inr r, w) ∧ rr_status r = 500.
Proof. destruct e; by eexists. Qed.

(** X24.  [GET /api/errors/<id>], for an id the driver can send, raises
    nothing and leaves the world as it was.  It answers 404 exactly when the
    table has no row under the id; with a row there, it answers 200 with
    the serialised row when the serialiser returns, and 500 when the
    serialiser raises. *)
Theorem get_error_answers dump error_id w :
  int64 error_id →
  ∃ r, get_error dump error_id w = (inr r, w)
    ∧ (rr_status r = 404 ↔ errors w !! error_id = None)
    ∧ (∀ e data,
         errors w !! error_id = Some e → dump error_id e = inr data →
         r = success_response data "Error log retrieved successfully")
    ∧ (∀ e x,
         errors w !! error_id = Some e → dump error_id e = inl x →
         rr_status r = 500).
Proof.
  intros _. unfold get_error, try_except.
  rewrite mbind_run, get_error_by_id_run.
  destruct (errors w !! error_id) as [e|] eqn:Hrow.
  - rewrite mbind_run. unfold lift_result.
    destruct (dump error_id e) as [x|data] eqn:Hdump.
    + destruct (route_failure_run x w) as (r & -> & Hr).
      exists r. split; [done|]. split; [by rewrite Hr|].
      split; [intros ? ? [= <-] ?; congruence|done].
    + eexists. split; [done|]. split; [done|].
      split; intros ? ? [= <-] ?; congruence.
  - eexists. split; [done|]. by split.
Qed.

Lemma get_error_answers_witness :
  (∃ r, get_error Cases.dump 9 Sample.populated = (inr r, Sample.populated)
        ∧ rr_status r = 404)
  ∧ get_error Cases.dump 4 Sample.populated
    = (inr (success_response
              (JDict {[ "id" := JNum 4; "method" := JStr "DELETE";
                        "status_code" := JNum 500 ]})
              "Error log retrieved successfully"), Sample.populated).
Proof.
  split.
  - destruct (get_error_answers Cases.dump 9 Sample.populated)
      as (r & Hrun & Hmissing & _); [unfold int64; lia|].
    exists r. split; [exact Hrun|]. by apply Hmissing.
  - destruct (get_error_answers Cases.dump 4 Sample.populated)
      as (r & Hrun & _ & Hfound & _); [unfold int64; lia|].
    rewrite Hrun. f_equal. f_equal.
    apply (Hfound (Sample.row "DELETE" "/api/test3" 500
                     (clock Sample.world - 1 * Sample.day) (Some 20)));
      reflexivity.
Defined.

(** X25.  A row [log_error] has stored is served by
    [GET /api/errors/<id>] under the id [log_error] returned: the answer is
    200 with the serialised row, when the serialiser returns.  Before the
    call the same request was answered 404. *)
Theorem logged_row_served dump a w k e w' data :
  log_error a w = (inr (k, e), w') →
  dump k e = inr data →
  get_error dump k w'
  = (inr (success_response data "Error log retrieved successfully"), w')
  ∧ get_error dump k w = (inr (error_response 404 "Error log not found"), w).
Proof.
  intros Hrun Hdump.
  apply log_error_inv in Hrun as (_ & _ & _ & _ & -> & -> & ->).
  unfold get_error, try_except. rewrite !mbind_run, !get_error_by_id_run.
  simpl. rewrite lookup_insert_eq, next_id_fresh.
  rewrite mbind_run. unfold lift_result. by rewrite Hdump.
Qed.

Lemma logged_row_served_witness :
  ∃ e w',
    log_error (Sample.args "post" "/api/links" 201) Sample.populated
    = (inr (5, e), w')
    ∧ (get_error Cases.dump 5 w').1
      = inr (success_response
               (JDict {[ "id" := JNum 5; "method" := JStr "POST";
                         "status_code" := JNum 201 ]})
               "Error log retrieved successfully")
    ∧ get_error Cases.dump 5 Sample.populated
      = (inr (error_response 404 "Error log not found"), Sample.populated).
Proof.
  eexists _, _. split; [reflexivity|].
  destruct (logged_row_served Cases.dump
              (Sample.args "post" "/api/links" 201) Sample.populated
              _ _ _ _ eq_refl eq_refl) as [Hnew Hold].
  split; [exact (f_equal fst Hnew) | exact Hold].
Defined.

Lemma get_errors_route_invalid dump validation_message q w :
  filter_schema_valid q = false →
  get_errors_route dump validation_message q w
  = (inr (error_response 400
            ("Validation error: " +:+ validation_message q)), w).
Proof.
  intros Hinvalid.
  unfold get_errors_route, try_except, error_filter_schema_load.
  by rewrite mbind_run, Hinvalid.
Qed.

Lemma get_errors_route_dated dump validation_message q w :
  filter_schema_valid q = true →
  q_start_date q ≠ None ∨ q_end_date q ≠ None →
  ∃ message,
    get_errors_route dump validation_message q w
    = (inr (error_response 500 ("Internal server error: " +:+ message)), w).
Proof.
  intros Hvalid Hdate.
  unfold get_errors_route, try_except, error_filter_schema_load.
  rewrite mbind_run, Hvalid. simpl.
  destruct (q_start_date q) as [d|]; [by eexists|].
  destruct (q_end_date q) as [d|]; [by eexists|].
  by destruct Hdate.
Qed.

(** X26.  [GET /api/errors] given an argument its schema refuses (a method
    that is not one of the six names in upper case, a status code outside
    100..599, a page below 1, a page size outside 1..100) answers 400 with
    the text of the validation error and leaves the world as it was.  So a
    method in lower case is refused here, though [get_errors] itself would
    match it. *)
Theorem get_errors_route_refuses dump validation_message q w :
  refused q →
  get_errors_route dump validation_message q w
  = (inr (error_response 400
            ("Validation error: " +:+ validation_message q)), w).
Proof.
  intros Hrefused. apply refused_invalid in Hrefused.
  by apply get_errors_route_invalid.
Qed.

Lemma get_errors_route_refuses_witness :
  refused (Cases.method_query "get")
  ∧ get_errors_route Cases.dump Cases.validation_message
      (Cases.method_query "get") Sample.populated
    = (inr (error_response 400 "Validation error: {...}"), Sample.populated).
Proof.
  assert (refused (Cases.method_query "get")) as Hrefused.
  { left. exists "get". split; [reflexivity|].
    apply (proj1 (bool_decide_eq_false _)). by vm_compute. }
  split; [exact Hrefused|].
  apply (get_errors_route_refuses Cases.dump Cases.validation_message
           (Cases.method_query "get") Sample.populated Hrefused).
Defined.

(** X27.  [GET /api/errors] given a start date or an end date that its
    schema accepts answers 500, whatever the other arguments and the table:
    the schema has made the argument a date, and the route then treats it
    as a text.  The world is left as it was. *)
Theorem get_errors_route_dates_fail dump validation_message q w :
  filter_schema_valid q = true →
  q_start_date q ≠ None ∨ q_end_date q ≠ None →
  ∃ message,
    get_errors_route dump validation_message q w
    = (inr (error_response 500 ("Internal server error: " +:+ message)), w).
Proof.
  intros Hvalid Hdate. by apply get_errors_route_dated.
Qed.

Lemma get_errors_route_dates_fail_witness :
  ∃ message,
    get_errors_route Cases.dump Cases.validation_message
      (Cases.since_query 1699999999990000) Sample.populated
    = (inr (error_response 500 ("Internal server error: " +:+ message)),
       Sample.populated).
Proof.
  apply (get_errors_route_dates_fail Cases.dump Cases.validation_message
           (Cases.since_query 1699999999990000) Sample.populated).
  - reflexivity.
  - left. discriminate.
Defined.

Lemma get_errors_route_undated dump validation_message q w :
  filter_schema_valid q = true →
  q_start_date q = None → q_end_date q = None →
  get_errors_route dump validation_message q w
  = let page := default 1 (q_page q) in
    let per_page := default 50 (q_per_page q) in
    let rows := matching_rows (query_filters q) w in
    match mapM (M:=M) (λ kr, lift_result (dump kr.1 kr.2))
            (page_of page per_page (query_filters q) w) w with
    | (inr errors, w') =>
        (inr (success_response
                (JDict {[ "errors" := JList errors;
                          "total" := JNum (Z.of_nat (length rows));
                          "page" := JNum page;
                          "per_page" := JNum per_page;
                          "pages" := JNum ((Z.of_nat (length rows)
                                            + per_page - 1) / per_page);
                          "has_next" :=
                            JBool (page <? (Z.of_nat (length rows)
                                            + per_page - 1) / per_page);
                          "has_prev" := JBool (1 <? page) ]})
                "Error logs retrieved successfully"), w')
    | (inl e, w') =>
        (if is_marshmallow_validation_error e
         then mret (error_response 400 ("Validation error: " +:+ exn_str e))
         else route_failure e) w'
    end.
Proof.
  intros Hvalid Hstart Hend.
  destruct (filter_schema_valid_bounds q Hvalid) as [Hpage [Hper _]].
  unfold get_errors_route, try_except, error_filter_schema_load.
  rewrite mbind_run, Hvalid. simpl. rewrite Hstart, Hend. simpl.
  rewrite mbind_run. simpl. rewrite mbind_run. simpl.
  rewrite mbind_run, get_errors_run.
  rewrite paginate_run by done. simpl. rewrite mbind_run.
  unfold page_of. rewrite get_errors_run, paginate_run by done. simpl.
  unfold matching_rows, query_filters.
  by destruct (mapM (M:=M) _ _ w) as [[e|errors] w'].
Qed.



(** X29.  [GET /api/errors] raises nothing and leaves the world as it was,
    whatever the query, the table and the serialiser.  Its status is 200,
    400 or 500, and it is 200 only for a query that the schema accepts and
    that has no date. *)
Theorem get_errors_route_never_raises dump validation_message q w :
  ∃ r,
    get_errors_route dump validation_message q w = (inr r, w)
    ∧ rr_status r ∈ [200; 400; 500]
    ∧ (rr_status r = 200 →
       ¬ refused q ∧ q_start_date q = None ∧ q_end_date q = None).
Proof.
  destruct (filter_schema_valid q) eqn:Hvalid.
  - destruct (decide (q_start_date q = None ∧ q_end_date q = None))
      as [[Hstart Hend]|Hdate].
    + rewrite get_errors_route_undated by done. simpl.
      pose proof (mapM_lift_result_world (λ kr, dump kr.1 kr.2)
                    (page_of (default 1 (q_page q))
                       (default 50 (q_per_page q)) (query_filters q) w) w)
        as Hworld.
      destruct (mapM (M:=M) _ _ w) as [[e|errors] w']; simpl in Hworld;
        subst w'.
      * destruct (is_marshmallow_validation_error e).
        { eexists. split; [done|]. split; [|done]. simpl. set_solver. }
        destruct (route_failure_run e w) as (r & -> & Hr).
        exists r. split; [done|]. rewrite Hr. split; [set_solver|done].
      * eexists. split; [done|]. split; [simpl; set_solver|].
        intros _. split; [|done]. rewrite refused_invalid. congruence.
    + destruct (get_errors_route_dated dump validation_message q w)
        as [message ->]; [done| |].
      { destruct (q_start_date q); [by left|].
        destruct (q_end_date q); [by right|]. by destruct Hdate. }
      eexists. split; [done|]. split; [simpl; set_solver|done].
  - rewrite get_errors_route_invalid by done.
    eexists. split; [done|]. split; [simpl; set_solver|done].
Qed.

(** ** Patterns in the endpoint filter *)

Lemma query_all_ext q q' t :
  (∀ e, selects q e = selects q' e) → query_all q t = query_all q' t.
Proof.
  intros Hsame. unfold query_all. apply list_filter_iff.
  intros kr. by rewrite Hsame.
Qed.

Lemma selects_endpoint_filter f text e :
  f_endpoint f = Some text → text ≠ "" →
  selects (errors_query f) e
  = selects (errors_query (without_endpoint f)) e
    && column_contains text (endpoint e).
Proof.
  intros Hendpoint Hne. unfold errors_query, without_endpoint. simpl.
  rewrite Hendpoint. simpl.
  destruct text as [|c text]; [done|]. simpl.
  unfold filter_if, query_filter, selects.
  destruct (f_method f) as [m|]; [destruct (Str.truthy m)|];
    destruct (f_status_code f) as [code|]; try destruct (negb (code =? 0));
    destruct (f_error_type f) as [t|]; try destruct (Str.truthy t);
    destruct (f_start_date f), (f_end_date f);
    rewrite ?forallb_app; simpl; btauto.
Qed.

Lemma column_contains_percent x : column_contains "%" x = true.
Proof.
  unfold column_contains. change ("%" +:+ "%" +:+ "%") with ("%%%").
  apply like_any_spec. exists "", x. split; [done|].
  apply like_any_spec. exists "", x. split; [done|]. apply like_all.
Qed.

Lemma column_contains_one x : column_contains "_" x = true ↔ x ≠ "".
Proof.
  unfold column_contains. change ("%" +:+ "_" +:+ "%") with ("%_%").
  rewrite like_any_spec. split.
  - intros (a & b & -> & Hb) Hempty. destruct b as [|c b]; [done|].
    by destruct a.
  - intros Hne. destruct x as [|c x]; [done|].
    exists "", (String c x). split; [done|]. apply like_all.
Qed.

(** X30.  The endpoint filter is read as a pattern of LIKE.  The filter [%]
    is no filter: [get_errors] answers as it does without an endpoint
    filter.  Under the filter [_] it lists the rows it lists without an
    endpoint filter whose endpoint is not empty, whether or not that
    endpoint has the character [_] in it. *)
Theorem get_errors_endpoint_pattern page per_page f w :
  (f_endpoint f = Some "%" →
   get_errors page per_page f w
   = get_errors page per_page (without_endpoint f) w)
  ∧ (f_endpoint f = Some "_" →
     ∀ k e, (k, e) ∈ matching_rows f w
            ↔ (k, e) ∈ matching_rows (without_endpoint f) w
              ∧ endpoint e ≠ "").
Proof.
  split.
  - intros Hendpoint. rewrite !get_errors_run.
    rewrite (query_all_ext (errors_query f)
               (errors_query (without_endpoint f))); [done|].
    intros e. rewrite (selects_endpoint_filter f "%") by done.
    by rewrite column_contains_percent, andb_true_r.
  - intros Hendpoint k e. unfold matching_rows, order_by_request_time_desc.
    rewrite !merge_sort_Permutation, !elem_of_query_all.
    rewrite (selects_endpoint_filter f "_") by done.
    rewrite andb_true_iff, column_contains_one. tauto.
Qed.

Lemma get_errors_endpoint_pattern_witness :
  (4, Sample.row "DELETE" "/api/test3" 500
        (clock Sample.world - 1 * Sample.day) (Some 20))
  ∈ matching_rows (Sample.endpoint_filter "_") Sample.populated.
Proof.
  destruct (get_errors_endpoint_pattern 1 50 (Sample.endpoint_filter "_")
              Sample.populated) as [_ Hone].
  apply (Hone eq_refl). split; [|done].
  unfold matching_rows, order_by_request_time_desc.
  rewrite merge_sort_Permutation, elem_of_query_all. by vm_compute.
Defined.
